(** * Client session manager of medicobot: a shallow embedding

    The development follows the authentication script of the front end
    (the file that starts with [initAuth]): session bootstrap, the login,
    registration and logout handlers, the notification helpers, the
    password-strength checker and the inactivity auto-logout.

    Conventions of the embedding.
    - A text that the scripts only copy or compare with a constant (a
      key, a stored value, a message, a field of a response) is a
      [string], one character for each code unit, which covers the code
      units below 256.  A text whose code units the scripts inspect (a
      password: its [.length] and the regular expressions of the strength
      checker; the upper-cased initial of a user name) is a [jstring], a
      sequence of UTF-16 code units.
    - What the browser decides is a parameter: [JSON.parse], the
      resolution of a redirect target as a URL, the text of a floating
      point percentage.
    - [localStorage] is a finite map from keys to strings ([gmap]);
      [getItem] is lookup, [setItem] is insert, [removeItem] is delete.
      The store is taken to be unbounded: [setItem] never raises.
    - Handlers are computations in a state-and-exception monad over the
      browser [world]; writes made before an exception is raised stay in
      the world that the [catch] block sees, as in JavaScript.
    - An [await] suspends the handler until the network answers.  Events
      are handled serially, so a handler is run as one step whose network
      outcome is an input. *)

From Stdlib Require Import ZArith String Ascii List Bool Lia DecimalString.
From stdpp Require Import base option list gmap strings fin_maps.

Local Open Scope string_scope.
Set Warnings "-register-all".

(** ** JavaScript values *)

(** The values that [response.json()] and [JSON.parse] produce, together
    with [undefined], which is what reading a missing property gives.
    A number is kept as the text that JavaScript prints for it ("42",
    "1.5", "1e+21"; "0" for both zeros): the scripts never compute with a
    number of a response, they test whether it is zero and print it.  The
    fields of [JObj] are the own properties of the object in enumeration
    order, with distinct keys; such an object has no callable property. *)
Inductive jsval : Type :=
| JUndefined
| JNull
| JBool (b : bool)
| JNum (text : string)
| JStr (s : string)
| JArr (items : list jsval)
| JObj (fields : list (string * jsval)).

(** ToBoolean: what [if (v)], [v && w] and [v || w] test. *)
Definition truthy (v : jsval) : bool :=
  match v with
  | JUndefined | JNull => false
  | JBool b => b
  | JNum text => negb (String.eqb text "0" || String.eqb text "NaN")
  | JStr s => negb (String.eqb s EmptyString)
  | JArr _ | JObj _ => true
  end.

(** [a || b] *)
Definition js_or (a b : jsval) : jsval := if truthy a then a else b.

Fixpoint join (sep : string) (parts : list string) : string :=
  match parts with
  | [] => EmptyString
  | [p] => p
  | p :: rest => p +:+ sep +:+ join sep rest
  end.

Definition string_of_Z (n : Z) : string := NilZero.string_of_int (Z.to_int n).

(** An own property of that name exists, whatever its value. *)
Definition has_own (key : string) (fields : list (string * jsval)) : bool :=
  existsb (fun kv : string * jsval => String.eqb kv.1 key) fields.

(** Whether the conversion of a value to a string succeeds.  An object
    is converted by calling its [toString].  An own property [toString]
    shadows the method of [Object.prototype] and is never callable here,
    and no [valueOf] then yields a primitive value, so the conversion
    raises.  An array is converted by joining the conversions of its
    items. *)
Fixpoint convertible (v : jsval) : bool :=
  match v with
  | JObj fields => negb (has_own "toString" fields)
  | JArr items => forallb convertible items
  | _ => true
  end.

(** The string that the conversion yields when it succeeds. *)
Fixpoint text_of (v : jsval) : string :=
  match v with
  | JUndefined => "undefined"
  | JNull => "null"
  | JBool b => if b then "true" else "false"
  | JNum text => text
  | JStr s => s
  | JArr items =>
      join "," (map (fun x => match x with
                              | JUndefined | JNull => EmptyString
                              | _ => text_of x
                              end) items)
  | JObj _ => "[object Object]"
  end.

Definition dquote : string := String "034"%char EmptyString.

Definition hex_digit (n : nat) : ascii :=
  nth n ["0"; "1"; "2"; "3"; "4"; "5"; "6"; "7"; "8"; "9";
         "a"; "b"; "c"; "d"; "e"; "f"]%char "0"%char.

(** The escape that [JSON.stringify] writes for one code unit. *)
Definition escape_char (c : ascii) : string :=
  let n := nat_of_ascii c in
  if Nat.eqb n 34 then "\" +:+ dquote
  else if Nat.eqb n 92 then "\\"
  else if Nat.eqb n 8 then "\b"
  else if Nat.eqb n 12 then "\f"
  else if Nat.eqb n 10 then "\n"
  else if Nat.eqb n 13 then "\r"
  else if Nat.eqb n 9 then "\t"
  else if Nat.ltb n 32 then
    "\u00" +:+ String (hex_digit (n / 16)) (String (hex_digit (n mod 16)) EmptyString)
  else String c EmptyString.

Fixpoint escape (s : string) : string :=
  match s with
  | EmptyString => EmptyString
  | String c rest => escape_char c +:+ escape rest
  end.

Definition quote (s : string) : string := dquote +:+ escape s +:+ dquote.

(** The text [JSON.stringify] produces, [None] when it produces
    [undefined].  An [undefined] array item is written [null]; a property
    whose value is [undefined] is left out. *)
Fixpoint serialize (v : jsval) : option string :=
  match v with
  | JUndefined => None
  | JNull => Some "null"
  | JBool b => Some (if b then "true" else "false")
  | JNum text =>
      Some (if String.eqb text "Infinity" || String.eqb text "-Infinity" ||
               String.eqb text "NaN"
            then "null" else text)
  | JStr s => Some (quote s)
  | JArr items =>
      Some ("[" +:+ join "," (map (fun x => default "null" (serialize x)) items) +:+ "]")
  | JObj fields =>
      Some ("{" +:+ join "," (omap (fun kv => match kv with
                                            | (k, x) =>
                                                match serialize x with
                                                | Some t => Some (quote k +:+ ":" +:+ t)
                                                | None => None
                                                end
                                            end) fields) +:+ "}")
  end.

Definition JSON_stringify (v : jsval) : jsval :=
  match serialize v with
  | Some t => JStr t
  | None => JUndefined
  end.

(** ** Texts whose code units are inspected *)

(** A JavaScript string as the sequence of its UTF-16 code units;
    [List.length] is [.length] and equality of lists is [===]. *)
Definition code_unit : Type := N.
Definition jstring : Type := list code_unit.

(** The code units of a text of the embedding. *)
Definition units (s : string) : jstring := map N_of_ascii (list_ascii_of_string s).

(** [a === b] on strings *)
Fixpoint jstring_eqb (a b : jstring) : bool :=
  match a, b with
  | [], [] => true
  | x :: a', y :: b' => N.eqb x y && jstring_eqb a' b'
  | _, _ => false
  end.

(** ** Password strength *)

(** The character classes of the four regular expressions, which have no
    flag: each matches one code unit. *)
Definition is_lower (c : code_unit) : bool := (97 <=? c)%N && (c <=? 122)%N.
Definition is_upper (c : code_unit) : bool := (65 <=? c)%N && (c <=? 90)%N.
Definition is_digit (c : code_unit) : bool := (48 <=? c)%N && (c <=? 57)%N.
Definition is_special (c : code_unit) : bool := negb (is_upper c || is_lower c || is_digit c).

(** [/[class]/.test(s)]: some code unit of [s] is in the class. *)
Fixpoint regex_test (class : code_unit -> bool) (s : jstring) : bool :=
  match s with
  | [] => false
  | c :: rest => class c || regex_test class rest
  end.

Record strength_report := {
  score : Z;
  maxScore : Z;
  feedback : string
}.

(** One [if (cond) strength++ else feedback.push(label)] of the source,
    on the pair of the two local variables. *)
Definition strength_check (cond : bool) (label : string)
    (acc : Z * list string) : Z * list string :=
  let '(strength, feedback) := acc in
  if cond then ((strength + 1)%Z, feedback) else (strength, (feedback ++ [label])%list).

Definition checkPasswordStrength (password : jstring) : strength_report :=
  let acc := (0%Z, []) in
  let acc := strength_check (Nat.leb 8 (List.length password)) "At least 8 characters" acc in
  let acc := strength_check (regex_test is_lower password) "Lowercase letters" acc in
  let acc := strength_check (regex_test is_upper password) "Uppercase letters" acc in
  let acc := strength_check (regex_test is_digit password) "Numbers" acc in
  let acc := strength_check (regex_test is_special password) "Special characters" acc in
  let '(strength, feedback) := acc in
  {| score := strength;
     maxScore := 5;
     feedback := if Nat.ltb 0 (List.length feedback)
                 then "Add: " +:+ join ", " feedback
                 else "Strong password!" |}.

(** ** The browser world *)

(** An element matched by [.auth-link]: its class list and its
    [style.display]. *)
Record auth_link := {
  link_classes : list string;
  link_display : string
}.

(** An element matched by [[data-user-field]]: the attribute, whether the
    tag is INPUT, TEXTAREA or SELECT, the text last assigned to its
    [value] (what a control then displays is the browser's business: a
    [select] or a number input may refuse it) and its [textContent]. *)
Record user_field := {
  field_name : string;
  field_is_control : bool;
  field_value : string;
  field_text : string
}.

(** The part of the page that the script reads and writes.  The three
    selectors are taken to match different elements. *)
Record document := {
  auth_links : list auth_link;     (* querySelectorAll('.auth-link') *)
  user_fields : list user_field;   (* querySelectorAll('[data-user-field]') *)
  avatars : list jstring;          (* textContent of each '.user-avatar-initials' *)
  auth_form : bool;                (* querySelector('.auth-form') is not null *)
  auth_errors : list string;       (* message of each '.auth-error' in the page *)
  auth_successes : list string     (* message of each '.auth-success' in the page *)
}.

Record request := {
  url : string;
  method : string;
  payload : option (gmap string string)  (* the object serialised as body *)
}.

Inductive timer_action :=
| DismissError (message : string)
| GoTo (target : string).

Record world := {
  localStorage : gmap string string;
  page : document;
  location_href : option string;         (* last assignment to window.location.href *)
  requests : list request;               (* fetch calls, oldest first *)
  dialogs : list string;                 (* confirm() prompts shown, oldest first *)
  console : list string;                 (* console.error lines *)
  timers : list (Z * timer_action)       (* setTimeout calls: delay in ms, callback *)
}.

Definition with_storage (f : gmap string string -> gmap string string) (w : world) : world :=
  {| localStorage := f (localStorage w); page := page w;
     location_href := location_href w; requests := requests w;
     dialogs := dialogs w; console := console w; timers := timers w |}.

Definition with_page (f : document -> document) (w : world) : world :=
  {| localStorage := localStorage w; page := f (page w);
     location_href := location_href w; requests := requests w;
     dialogs := dialogs w; console := console w; timers := timers w |}.

Definition with_location (target : string) (w : world) : world :=
  {| localStorage := localStorage w; page := page w;
     location_href := Some target; requests := requests w;
     dialogs := dialogs w; console := console w; timers := timers w |}.

Definition with_request (r : request) (w : world) : world :=
  {| localStorage := localStorage w; page := page w;
     location_href := location_href w; requests := (requests w ++ [r])%list;
     dialogs := dialogs w; console := console w; timers := timers w |}.

Definition with_dialog (message : string) (w : world) : world :=
  {| localStorage := localStorage w; page := page w;
     location_href := location_href w; requests := requests w;
     dialogs := (dialogs w ++ [message])%list; console := console w;
     timers := timers w |}.

Definition with_console (line : string) (w : world) : world :=
  {| localStorage := localStorage w; page := page w;
     location_href := location_href w; requests := requests w;
     dialogs := dialogs w; console := (console w ++ [line])%list;
     timers := timers w |}.

Definition with_timer (delay : Z) (a : timer_action) (w : world) : world :=
  {| localStorage := localStorage w; page := page w;
     location_href := location_href w; requests := requests w;
     dialogs := dialogs w; console := console w;
     timers := (timers w ++ [(delay, a)])%list |}.

(** ** Computations: state and exceptions *)

Inductive error :=
| TypeError
| SyntaxError
| DOMException.

Inductive outcome (A : Type) :=
| Returned (a : A)
| Thrown (e : error).
Arguments Returned {A} a.
Arguments Thrown {A} e.

Definition js (A : Type) : Type := world -> outcome A * world.

Definition ret {A} (a : A) : js A := fun w => (Returned a, w).

Definition throw {A} (e : error) : js A := fun w => (Thrown e, w).

Definition bind {A B} (m : js A) (k : A -> js B) : js B :=
  fun w =>
    match m w with
    | (Returned a, w') => k a w'
    | (Thrown e, w') => (Thrown e, w')
    end.

(** [try { body } catch (e) { handler }] *)
Definition try_catch {A} (body : js A) (handler : error -> js A) : js A :=
  fun w =>
    match body w with
    | (Returned a, w') => (Returned a, w')
    | (Thrown e, w') => handler e w'
    end.

Notation "'let*' x := m 'in' k" := (bind m (fun x => k))
  (at level 10, x name, m at level 100, k at level 200).
Notation "m ;; k" := (bind m (fun _ => k))
  (at level 100, k at level 200, right associativity).

Definition modify (f : world -> world) : js unit := fun w => (Returned tt, f w).

(** The world a computation leaves, and whether it returned. *)
Definition exec {A} (m : js A) (w : world) : world := snd (m w).
Definition result_of {A} (m : js A) (w : world) : outcome A := fst (m w).

(** ToString: the conversion applied by [localStorage.setItem], by a
    template literal, by an assignment to [location.href] and by an
    assignment to [value] or [textContent].  It raises a TypeError on a
    value that cannot be converted. *)
Definition ToString (v : jsval) : js string :=
  if convertible v then ret (text_of v) else throw TypeError.

(** *** localStorage *)

Definition getItem (key : string) : js jsval :=
  fun w => (Returned (match localStorage w !! key with
                      | Some s => JStr s
                      | None => JNull
                      end), w).

Definition setItem (key value : string) : js unit :=
  modify (with_storage (fun m => <[key := value]> m)).

Definition removeItem (key : string) : js unit :=
  modify (with_storage (fun m => delete key m)).

(** *** Property access *)

Fixpoint assoc (key : string) (fields : list (string * jsval)) : jsval :=
  match fields with
  | [] => JUndefined
  | (k, v) :: rest => if String.eqb k key then v else assoc key rest
  end.

(** The index that a property key denotes, among the first [n]: the key
    is the decimal form of the index. *)
Definition index_of_key (key : string) (n : nat) : option nat :=
  find (fun i => String.eqb (string_of_Z (Z.of_nat i)) key) (seq 0 n).

(** [v.key] and [v[key]] on own properties: a property of [null] or
    [undefined] raises a TypeError; an object has its fields; an array and
    a string have their indexed items and [length]; anything else is
    [undefined].  The properties that a value inherits from its prototype
    (the methods, [constructor], [__proto__]) are not in [jsval] and are
    read as [undefined]: this is exact for every key that the scripts
    write themselves ([token], [user], [redirect], [message], [username]),
    none of which is inherited, and for a key taken from the page
    ([data-user-field]) unless the page names an inherited property. *)
Definition get_prop (v : jsval) (key : string) : js jsval :=
  match v with
  | JUndefined | JNull => throw TypeError
  | JObj fields => ret (assoc key fields)
  | JArr items =>
      ret (match index_of_key key (List.length items) with
           | Some i => nth i items JUndefined
           | None =>
               if String.eqb key "length"
               then JNum (string_of_Z (Z.of_nat (List.length items)))
               else JUndefined
           end)
  | JStr s =>
      ret (match index_of_key key (String.length s) with
           | Some i => JStr (String.substring i 1 s)
           | None =>
               if String.eqb key "length"
               then JNum (string_of_Z (Z.of_nat (String.length s)))
               else JUndefined
           end)
  | JBool _ | JNum _ => ret JUndefined
  end.

(** *** Network *)

(** What the server side does with one [fetch]: the request fails, or a
    response arrives with its [ok] flag and a body, [None] when the body
    is not JSON. *)
Inductive fetch_result :=
| NetworkError
| Response (ok : bool) (body : option jsval).

Record response := {
  resp_ok : bool;
  resp_body : option jsval
}.

(** [await fetch(url, ...)]: the call is issued, then the promise rejects
    (a TypeError in browsers) or resolves. *)
Definition fetch (target : string) (data : option (gmap string string))
    (net : fetch_result) : js response :=
  modify (with_request {| url := target; method := "POST"; payload := data |}) ;;
  match net with
  | NetworkError => throw TypeError
  | Response ok body => ret {| resp_ok := ok; resp_body := body |}
  end.

(** [await response.json()] *)
Definition response_json (r : response) : js jsval :=
  match resp_body r with
  | Some v => ret v
  | None => throw SyntaxError
  end.

(** [Object.fromEntries(new FormData(form))]: a later entry of the same
    name replaces an earlier one. *)
Definition fromEntries (entries : list (string * string)) : gmap string string :=
  foldl (fun m kv => <[kv.1 := kv.2]> m) ∅ entries.

(** [window.location.href = target] for a target that the script writes
    itself, a path of the site. *)
Definition navigate (target : string) : js unit := modify (with_location target).

(** [window.location.href = target] for a text that comes from a
    response.  The browser resolves the text against the address of the
    page before it navigates, and raises a DOMException when the text is
    not a URL ("http://" is not one, every path is).  [resolves] is that
    test, a built-in of the browser. *)
Definition assign_location (resolves : string -> bool) (target : string) : js unit :=
  if resolves target then navigate target else throw DOMException.

Definition confirm (message : string) (answer : bool) : js bool :=
  modify (with_dialog message) ;; ret answer.

Definition console_error (line : string) : js unit := modify (with_console line).

Definition setTimeout (a : timer_action) (delay : Z) : js unit :=
  modify (with_timer delay a).

(** ** Session bootstrap *)

Definition has_class (c : string) (l : auth_link) : bool :=
  existsb (String.eqb c) (link_classes l).

Definition set_display (value : string) (l : auth_link) : auth_link :=
  {| link_classes := link_classes l; link_display := value |}.

(** The body of the [forEach] over the links, for a logged-in user. *)
Definition link_for_user (l : auth_link) : auth_link :=
  let l := if has_class "login-link" l then set_display "none" l else l in
  let l := if has_class "register-link" l then set_display "none" l else l in
  let l := if has_class "profile-link" l then set_display "block" l else l in
  let l := if has_class "logout-link" l then set_display "block" l else l in
  l.

(** The body of the [forEach] over the links, for a guest. *)
Definition link_for_guest (l : auth_link) : auth_link :=
  let l := if has_class "login-link" l then set_display "block" l else l in
  let l := if has_class "register-link" l then set_display "block" l else l in
  let l := if has_class "profile-link" l then set_display "none" l else l in
  let l := if has_class "logout-link" l then set_display "none" l else l in
  l.

Definition with_links (f : list auth_link -> list auth_link) (d : document) : document :=
  {| auth_links := f (auth_links d); user_fields := user_fields d;
     avatars := avatars d; auth_form := auth_form d;
     auth_errors := auth_errors d; auth_successes := auth_successes d |}.

Definition with_user_fields (fs : list user_field) (d : document) : document :=
  {| auth_links := auth_links d; user_fields := fs;
     avatars := avatars d; auth_form := auth_form d;
     auth_errors := auth_errors d; auth_successes := auth_successes d |}.

Definition with_avatars (a : list jstring) (d : document) : document :=
  {| auth_links := auth_links d; user_fields := user_fields d;
     avatars := a; auth_form := auth_form d;
     auth_errors := auth_errors d; auth_successes := auth_successes d |}.

(** A [forEach] whose body may raise: the elements already visited keep
    their new content, the others keep the old one. *)
Fixpoint for_each {A} (body : A -> js A) (l : list A) (store : list A -> js unit)
    (seen : list A) : js unit :=
  match l with
  | [] => store seen
  | x :: rest =>
      fun w =>
        match body x w with
        | (Returned y, w') => for_each body rest store (seen ++ [y])%list w'
        | (Thrown e, w') => (store (seen ++ x :: rest)%list ;; throw e) w'
        end
  end.

(** The body of the [forEach] over the [data-user-field] elements.  The
    assignment converts the value, and leaves the element as it was when
    the conversion raises. *)
Definition bind_user_field (userData : jsval) (f : user_field) : js user_field :=
  let* v := get_prop userData (field_name f) in
  if truthy v then
    let* text := ToString v in
    if field_is_control f then
      ret {| field_name := field_name f; field_is_control := true;
             field_value := text; field_text := field_text f |}
    else
      ret {| field_name := field_name f; field_is_control := false;
             field_value := field_value f; field_text := text |}
  else ret f.

(** [c.toUpperCase()] for a text of one code unit below 256, in the
    default case mapping of Unicode: the letters a to z and the letters
    U+00E0 to U+00FE (U+00F7, the division sign, is not one) are 32 above
    their capitals; the capital of the micro sign is U+039C, the one of
    U+00FF is U+0178, and the sharp s becomes SS; nothing else changes. *)
Definition upcase (c : ascii) : jstring :=
  let n := N_of_ascii c in
  if is_lower n || ((224 <=? n)%N && (n <=? 254)%N && negb (n =? 247)%N) then [(n - 32)%N]
  else if (n =? 181)%N then [924%N]
  else if (n =? 223)%N then [83%N; 83%N]
  else if (n =? 255)%N then [376%N]
  else [n].

(** [s.charAt(0).toUpperCase()] *)
Definition initial (s : string) : jstring :=
  match s with
  | EmptyString => []
  | String c _ => upcase c
  end.

(** The body of the [forEach] over the avatar elements: [charAt] exists on
    strings only. *)
Definition bind_avatar (userData : jsval) (text : jstring) : js jstring :=
  let* username := get_prop userData "username" in
  if truthy username then
    match username with
    | JStr s => ret (initial s)
    | _ => throw TypeError
    end
  else ret text.

Definition updateUIForLoggedInUser (userData : jsval) : js unit :=
  modify (with_page (with_links (map link_for_user))) ;;
  (fun w => for_each (bind_user_field userData) (user_fields (page w))
              (fun fs => modify (with_page (with_user_fields fs))) [] w) ;;
  (fun w => for_each (bind_avatar userData) (avatars (page w))
              (fun a => modify (with_page (with_avatars a))) [] w).

Definition updateUIForGuest : js unit :=
  modify (with_page (with_links (map link_for_guest))).

(** The two states that bootstrap can put the interface into. *)
Inductive ui_state :=
| Authenticated (userData : jsval)
| Guest.

Section Bootstrap.

(** [JSON.parse]: [None] when the text is not JSON (a SyntaxError). *)
Variable JSON_parse : string -> option jsval.

Definition parse (text : jsval) : js jsval :=
  match JSON_parse (text_of text) with
  | Some v => ret v
  | None => throw SyntaxError
  end.

(** [checkAuthStatus].  The source returns nothing; the embedding
    returns the projection that was selected, so that statements can
    name it. *)
Definition checkAuthStatus : js ui_state :=
  let* authToken := getItem "auth_token" in
  let* userData := getItem "user_data" in
  if truthy authToken && truthy userData then
    let* parsed := parse userData in
    updateUIForLoggedInUser parsed ;;
    ret (Authenticated parsed)
  else
    updateUIForGuest ;;
    ret Guest.

End Bootstrap.

(** ** Notifications *)

Definition with_errors (f : list string -> list string) (d : document) : document :=
  {| auth_links := auth_links d; user_fields := user_fields d;
     avatars := avatars d; auth_form := auth_form d;
     auth_errors := f (auth_errors d); auth_successes := auth_successes d |}.

Definition with_successes (f : list string -> list string) (d : document) : document :=
  {| auth_links := auth_links d; user_fields := user_fields d;
     avatars := avatars d; auth_form := auth_form d;
     auth_errors := auth_errors d; auth_successes := f (auth_successes d) |}.

(** [showAuthError]: every [.auth-error] of the page is removed; the new
    element is inserted, and its removal scheduled, only when the page has
    an [.auth-form]. *)
Definition showAuthError (message : string) : js unit :=
  modify (with_page (with_errors (fun _ => []))) ;;
  fun w =>
    if auth_form (page w) then
      (modify (with_page (with_errors (fun errs => message :: errs))) ;;
       setTimeout (DismissError message) 5000) w
    else ret tt w.

(** [showAuthError(message)] for a message that is a value of a
    response: the earlier notifications are removed, then the template
    literal converts the message, which may raise, and the function goes
    on as above with the text. *)
Definition showAuthError_of (message : jsval) : js unit :=
  modify (with_page (with_errors (fun _ => []))) ;;
  let* text := ToString message in
  showAuthError text.

Definition showAuthSuccess (message : string) : js unit :=
  modify (with_page (with_successes (fun _ => []))) ;;
  fun w =>
    if auth_form (page w) then
      modify (with_page (with_successes (fun oks => message :: oks))) w
    else ret tt w.

(** ** The form handlers of [setupAuthForms] *)

(** The submit handler of the login form.  [entries] are the fields of the
    form, [remember] is the [checked] state of its [remember] checkbox
    ([None] when the form has none), [net] is what the network does.
    [resolves] is the browser's test of a redirect target.  [setItem]
    and the assignment to [location.href] convert their argument;
    [JSON.stringify] of a truthy value is a string already. *)
Definition login_submit (resolves : string -> bool)
    (entries : list (string * string)) (remember : option bool)
    (net : fetch_result) : js unit :=
  let data := fromEntries entries in
  try_catch
    (let* response := fetch "/login" (Some data) net in
     let* result := response_json response in
     if resp_ok response then
       let* token := get_prop result "token" in
       (if truthy token then
          let* text := ToString token in
          setItem "auth_token" text
        else ret tt) ;;
       let* user := get_prop result "user" in
       (if truthy user then setItem "user_data" (text_of (JSON_stringify user))
        else ret tt) ;;
       (match remember with
        | Some true => setItem "remember_me" "true"
        | _ => ret tt
        end) ;;
       let* redirect := get_prop result "redirect" in
       let* target := ToString (js_or redirect (JStr "/home")) in
       assign_location resolves target
     else
       let* message := get_prop result "message" in
       showAuthError_of (js_or message (JStr "Login failed")))
    (fun _ =>
       console_error "Login error:" ;;
       showAuthError "Network error. Please try again.").

(** The submit handler of the registration form.  [password] and
    [confirmPassword] are the values of [#password] and
    [#confirm_password].  The form's own [reset()] touches no state of the
    model. *)
Definition register_submit (password confirmPassword : jstring)
    (entries : list (string * string)) (net : fetch_result) : js unit :=
  if negb (jstring_eqb password confirmPassword) then
    showAuthError "Passwords do not match"
  else if Nat.ltb (List.length password) 6 then
    showAuthError "Password must be at least 6 characters long"
  else
    let data := fromEntries entries in
    let data := delete "confirm_password" data in
    try_catch
      (let* response := fetch "/register" (Some data) net in
       let* result := response_json response in
       if resp_ok response then
         showAuthSuccess "Registration successful! Redirecting to login..." ;;
         setTimeout (GoTo "/login") 2000
       else
         let* message := get_prop result "message" in
         showAuthError_of (js_or message (JStr "Registration failed")))
      (fun _ =>
         console_error "Registration error:" ;;
         showAuthError "Network error. Please try again.").

(** The click handler of the logout link.  [answer] is what the user
    answers to the prompt. *)
Definition logout_click (answer : bool) (net : fetch_result) : js unit :=
  let* confirmed := confirm "Are you sure you want to logout?" answer in
  if confirmed then
    try_catch
      (fetch "/logout" None net ;;
       removeItem "auth_token" ;;
       removeItem "user_data" ;;
       removeItem "remember_me" ;;
       navigate "/")
      (fun _ => console_error "Logout error:")
  else ret tt.

(** ** Auto-logout after inactivity *)

(** The closure of [setupAutoLogout]: whether the activity listeners are
    registered, and the pending timer (its delay), if any. *)
Record inactivity := {
  listening : bool;
  timeout : option Z
}.

Definition logoutTime : Z := 30 * 60 * 1000.

Definition inactivity_prompt : string :=
  "You have been inactive for a while. Do you want to stay logged in?".

(** [clearTimeout(timeout); timeout = setTimeout(logoutDueToInactivity, logoutTime)] *)
Definition resetTimer (t : inactivity) : inactivity :=
  {| listening := listening t; timeout := Some logoutTime |}.

Definition logoutDueToInactivity (answer : bool) (t : inactivity) : js inactivity :=
  let* token := getItem "auth_token" in
  if truthy token then
    let* stay := confirm inactivity_prompt answer in
    if stay then ret (resetTimer t)
    else
      removeItem "auth_token" ;;
      removeItem "user_data" ;;
      navigate "/login?timeout=true" ;;
      ret t
  else ret t.

Definition setupAutoLogout : inactivity :=
  resetTimer {| listening := true; timeout := None |}.

Definition unarmed : inactivity := {| listening := false; timeout := None |}.

(** The statement at the end of the script, run once when it loads. *)
Definition init_auto_logout : js inactivity :=
  let* token := getItem "auth_token" in
  if truthy token then ret setupAutoLogout else ret unarmed.

(** What can happen to a loaded page: one of the five activity events, the
    countdown of the pending timer running out (with the answer the user
    would give to a prompt), or another handler or tab writing the store. *)
Inductive event :=
| Activity
| Elapsed (answer : bool)
| StorageSet (key value : string)
| StorageRemove (key : string).

Definition step (ev : event) (s : inactivity * world) : inactivity * world :=
  let '(t, w) := s in
  match ev with
  | Activity => if listening t then (resetTimer t, w) else (t, w)
  | Elapsed answer =>
      match timeout t with
      | Some _ =>
          let fired := {| listening := listening t; timeout := None |} in
          match logoutDueToInactivity answer fired w with
          | (Returned t', w') => (t', w')
          | (Thrown _, w') => (fired, w')
          end
      | None => (t, w)
      end
  | StorageSet key value => (t, exec (setItem key value) w)
  | StorageRemove key => (t, exec (removeItem key) w)
  end.

Definition boot (w : world) : inactivity * world :=
  match init_auto_logout w with
  | (Returned t, w') => (t, w')
  | (Thrown _, w') => (unarmed, w')
  end.

Definition run (evs : list event) (s : inactivity * world) : inactivity * world :=
  foldl (fun s ev => step ev s) s evs.

(** ** The specification's vocabulary *)

(** *** Password strength, in the words of the specification *)

(** Some code unit of [s] is in the class. *)
Definition contains (class : code_unit -> bool) (s : jstring) : bool :=
  existsb class s.

(** The code unit of a character. *)
Definition unit_of (c : ascii) : code_unit := N_of_ascii c.

Definition lowercase_letter (c : code_unit) : bool :=
  (unit_of "a" <=? c)%N && (c <=? unit_of "z")%N.
Definition uppercase_letter (c : code_unit) : bool :=
  (unit_of "A" <=? c)%N && (c <=? unit_of "Z")%N.
Definition digit (c : code_unit) : bool :=
  (unit_of "0" <=? c)%N && (c <=? unit_of "9")%N.
Definition non_alphanumeric (c : code_unit) : bool :=
  negb (lowercase_letter c) && negb (uppercase_letter c) && negb (digit c).

(** The five conditions, each with the category named in the feedback. *)
Definition categories (password : jstring) : list (bool * string) :=
  [ (Nat.leb 8 (List.length password), "At least 8 characters");
    (contains lowercase_letter password, "Lowercase letters");
    (contains uppercase_letter password, "Uppercase letters");
    (contains digit password, "Numbers");
    (contains non_alphanumeric password, "Special characters") ].

Definition satisfied (password : jstring) : list bool := map fst (categories password).

Definition satisfied_count (password : jstring) : Z :=
  Z.of_nat (List.length (filter (fun b : bool => b) (satisfied password))).

Definition missing (password : jstring) : list string :=
  map snd (filter (fun c : bool * string => negb (fst c)) (categories password)).

(** [q] satisfies every condition that [p] satisfies. *)
Definition satisfies_more (p q : jstring) : bool :=
  forallb (fun ab : bool * bool => implb (fst ab) (snd ab))
          (combine (satisfied p) (satisfied q)).

(** *** The stored session *)

(** The key is set in the store. *)
Definition present (key : string) (st : gmap string string) : bool :=
  match st !! key with
  | Some _ => true
  | None => false
  end.

(** The key is set to a non-empty string: what the script's [if] tests. *)
Definition usable (key : string) (st : gmap string string) : bool :=
  match st !! key with
  | Some s => negb (String.eqb s EmptyString)
  | None => false
  end.

(** Token and profile are both set or both absent. *)
Definition paired (st : gmap string string) : Prop :=
  present "auth_token" st = present "user_data" st.

Definition session_keys : list string := ["auth_token"; "user_data"; "remember_me"].

Definition is_session_key (key : string) : bool :=
  existsb (String.eqb key) session_keys.

(** A login attempt fails: the request does not complete, or the response
    is not ok. *)
Definition login_failed (net : fetch_result) : bool :=
  match net with
  | NetworkError => true
  | Response ok _ => negb ok
  end.

(** The token of a response, when it has one, can be stored: the
    conversion that [setItem] applies to it does not raise. *)
Definition token_storable (fields : list (string * jsval)) : bool :=
  negb (truthy (assoc "token" fields)) || convertible (assoc "token" fields).

(** The handler writes [auth_token]: an ok response whose body is an
    object with a truthy [token] that converts to a string. *)
Definition stores_token (net : fetch_result) : bool :=
  match net with
  | Response true (Some (JObj fields)) =>
      truthy (assoc "token" fields) && convertible (assoc "token" fields)
  | _ => false
  end.

(** The handler writes [user_data]: an ok response whose body is an
    object with a truthy [user], when storing the token did not raise. *)
Definition stores_user (net : fetch_result) : bool :=
  match net with
  | Response true (Some (JObj fields)) =>
      truthy (assoc "user" fields) && token_storable fields
  | _ => false
  end.

Definition network_error_message : string := "Network error. Please try again.".

(** The notification text for a response that is not ok, with the
    fallback of the handler: the message of the body or the fallback,
    converted by the template literal; the network message when the body
    has no properties ([null]) or the conversion raises, both of which
    end in the [catch] block. *)
Definition rejection_message (fallback : string) (body : jsval) : string :=
  match body with
  | JObj fields =>
      let message := js_or (assoc "message" fields) (JStr fallback) in
      if convertible message then text_of message else network_error_message
  | JBool _ | JNum _ | JStr _ | JArr _ => fallback
  | JUndefined | JNull => network_error_message
  end.

(** The notification text of a failed login. *)
Definition failure_message (net : fetch_result) : string :=
  match net with
  | Response false (Some body) => rejection_message "Login failed" body
  | _ => network_error_message
  end.

(** The request that the login handler issues. *)
Definition login_request (entries : list (string * string)) : request :=
  {| url := "/login"; method := "POST"; payload := Some (fromEntries entries) |}.

(** *** Statements of the specification that the code does not meet, as worded *)

Definition login_always_pairs : Prop :=
  forall resolves entries remember net w,
    paired (localStorage (exec (login_submit resolves entries remember net) w)).

Definition logout_cleans_unconditionally : Prop :=
  forall net w,
    let w' := exec (logout_click true net) w in
    Forall (fun k => localStorage w' !! k = None) session_keys /\
    location_href w' = Some "/".

Definition failed_login_shows_one_error : Prop :=
  forall resolves entries remember net w,
    login_failed net = true ->
    let w' := exec (login_submit resolves entries remember net) w in
    Forall (fun k => localStorage w' !! k = localStorage w !! k) session_keys /\
    location_href w' = location_href w /\
    exists message, auth_errors (page w') = [message].

Definition registration_always_shows_error : Prop :=
  forall password confirmPassword entries net w,
    password <> confirmPassword \/ (List.length password < 6)%nat ->
    let w' := exec (register_submit password confirmPassword entries net) w in
    requests w' = requests w /\
    exists message,
      auth_errors (page w') = [message] /\
      (password <> confirmPassword -> message = "Passwords do not match").

Definition mismatch_always_shown : Prop :=
  forall password confirmPassword entries net w,
    password <> confirmPassword ->
    (List.length password < 6)%nat ->
    auth_errors (page (exec (register_submit password confirmPassword entries net) w)) =
      ["Passwords do not match"].

Definition bootstrap_follows_presence : Prop :=
  forall JSON_parse w,
    let r := result_of (checkAuthStatus JSON_parse) w in
    ((exists userData, r = Returned (Authenticated userData)) <->
       present "auth_token" (localStorage w) = true /\
       present "user_data" (localStorage w) = true) /\
    (r = Returned Guest <->
       present "auth_token" (localStorage w) = false \/
       present "user_data" (localStorage w) = false).

Definition logout_removes_exactly_session_keys : Prop :=
  forall net w,
    let w' := exec (logout_click true net) w in
    Forall (fun k => localStorage w' !! k = None) session_keys /\
    localStorage w' !! "remembered_username" = localStorage w !! "remembered_username".

(** *** Sample pages and stores *)

Definition login_page : document :=
  {| auth_links := [ {| link_classes := ["auth-link"; "login-link"]; link_display := "block" |};
                     {| link_classes := ["auth-link"; "logout-link"]; link_display := "none" |} ];
     user_fields := []; avatars := [];
     auth_form := true; auth_errors := []; auth_successes := [] |}.

(** A page whose login form is not marked [.auth-form]. *)
Definition bare_page : document :=
  {| auth_links := []; user_fields := []; avatars := [];
     auth_form := false; auth_errors := []; auth_successes := [] |}.

Definition fresh (st : gmap string string) (d : document) : world :=
  {| localStorage := st; page := d; location_href := None; requests := [];
     dialogs := []; console := []; timers := [] |}.

Definition signed_in : gmap string string :=
  <["auth_token" := "abc"]> (<["user_data" := "{}"]> (<["remember_me" := "true"]>
    (<["remembered_username" := "alice"]> ∅))).

Definition blank_token : gmap string string :=
  <["auth_token" := EmptyString]> (<["user_data" := "{}"]> ∅).

(** A parser that knows one text, the empty object. *)
Definition parse_empty_object (text : string) : option jsval :=
  if String.eqb text "{}" then Some (JObj []) else None.

Definition alice : jsval := JObj [("username", JStr "alice")].

(** A resolver that takes the paths of the site and nothing else. *)
Definition path_only (target : string) : bool :=
  match target with
  | String "/"%char _ => true
  | _ => false
  end.

Definition credentials : list (string * string) :=
  [("username", "alice"); ("password", "secret1")].

(** ** Remember me *)

(** The two fields of the login form that [setupRememberMe] looks up: the
    [checked] state of [input[name="remember"]] and the value of
    [input[name="username"]], [None] when the page has no such element. *)
Record login_fields := {
  remember_checkbox : option bool;
  username_input : option string
}.

(** [v === 'text'] *)
Definition strict_eq_text (v : jsval) (text : string) : bool :=
  match v with
  | JStr t => String.eqb t text
  | _ => false
  end.

(** The first half of [setupRememberMe], run when the page loads: the
    stored choice is put back into the form. *)
Definition setupRememberMe (f : login_fields) : js login_fields :=
  let* savedRemember := getItem "remember_me" in
  match remember_checkbox f with
  | Some _ =>
      if strict_eq_text savedRemember "true" then
        let f := {| remember_checkbox := Some true; username_input := username_input f |} in
        let* savedUsername := getItem "remembered_username" in
        match username_input f with
        | Some _ =>
            if truthy savedUsername then
              ret {| remember_checkbox := remember_checkbox f;
                     username_input := Some (text_of savedUsername) |}
            else ret f
        | None => ret f
        end
      else ret f
  | None => ret f
  end.

(** The [change] handler of the checkbox.  [checked] is the state of the
    box after the change, [username] the value of the username field. *)
Definition remember_change (checked : bool) (username : option string) : js unit :=
  if checked then
    (match username with
     | Some value =>
         if negb (String.eqb value EmptyString)
         then setItem "remembered_username" value
         else ret tt
     | None => ret tt
     end) ;;
    setItem "remember_me" "true"
  else
    removeItem "remembered_username" ;;
    removeItem "remember_me".

(** ** Password visibility toggles *)

(** A [.toggle-password] button: the [type] of the input before it
    ([None] when the button has no previous sibling), the class list of
    its [i] icon ([None] when it has none), and its [aria-label]. *)
Record toggle_button := {
  sibling_type : option string;
  icon_classes : option (list string);
  aria_label : option string
}.

(** [classList.remove] and [classList.add] *)
Definition class_remove (c : string) (classes : list string) : list string :=
  List.filter (fun x => negb (String.eqb x c)) classes.

Definition class_add (c : string) (classes : list string) : list string :=
  if existsb (String.eqb c) classes then classes else (classes ++ [c])%list.

(** The [click] handler of a toggle.  The type of the input is assigned
    before the icon is touched, so a button without icon raises with the
    type already changed. *)
Definition toggle_click (b : toggle_button) : outcome unit * toggle_button :=
  match sibling_type b with
  | None => (Thrown TypeError, b)
  | Some ty =>
      let shown := String.eqb ty "password" in
      let b1 := {| sibling_type := Some (if shown then "text" else "password");
                   icon_classes := icon_classes b; aria_label := aria_label b |} in
      match icon_classes b1 with
      | None => (Thrown TypeError, b1)
      | Some classes =>
          (Returned tt,
           {| sibling_type := sibling_type b1;
              icon_classes :=
                Some (if shown
                      then class_add "fa-eye-slash" (class_remove "fa-eye" classes)
                      else class_add "fa-eye" (class_remove "fa-eye-slash" classes));
              aria_label := Some (if shown then "Hide password" else "Show password") |})
      end
  end.

(** ** The strength indicator *)

Record strength_bar := {
  bar_width : string;
  bar_color : string
}.

Record strength_text := {
  text_content : string;
  text_color : string
}.

Section StrengthIndicator.

(** The text of [`${(score / maxScore) * 100}%`], a floating point
    computation. *)
Variable percent : Z -> Z -> string.

(** [updatePasswordStrength], on the elements [#passwordStrength] and
    [#passwordFeedback] ([None] when the page has none). *)
Definition updatePasswordStrength (password : jstring)
    (indicator : option strength_bar) (feedback_element : option strength_text)
    : option strength_bar * option strength_text :=
  let strength := checkPasswordStrength password in
  (match indicator with
   | Some _ =>
       Some {| bar_width := percent (score strength) (maxScore strength);
               bar_color := if (score strength <=? 2)%Z then "#ff4d4d"
                            else if (score strength =? 3)%Z then "#ffd24d"
                            else "#4dff4d" |}
   | None => None
   end,
   match feedback_element with
   | Some _ =>
       Some {| text_content := feedback strength;
               text_color := if (4 <=? score strength)%Z then "#4dff4d"
                             else if (2 <=? score strength)%Z then "#ffd24d"
                             else "#ff4d4d" |}
   | None => None
   end).

End StrengthIndicator.

(** ** Start-up of the authentication script *)

(** What [setupAuthForms], [setupPasswordToggles] and [setupRememberMe]
    look for in the page, beside the [document] above. *)
Record auth_page := {
  has_login_form : bool;        (* getElementById('loginForm') *)
  has_register_form : bool;     (* getElementById('registerForm') *)
  other_logout_link : bool;     (* a '.logout-link' that is not an '.auth-link' *)
  toggle_buttons : list toggle_button;
  form_fields : login_fields
}.

(** The listeners that start-up has registered. *)
Record auth_handlers := {
  login_handler : bool;
  register_handler : bool;
  logout_handler : bool;
  toggle_handlers : nat;
  remember_handler : bool
}.

Section Startup.

Variable JSON_parse : string -> option jsval.

(** [initAuth]: the session check comes first and is not guarded, so the
    three set-up calls run only when it returns.  The result is the set
    of registered listeners and the login fields as [setupRememberMe]
    leaves them. *)
Definition initAuth (p : auth_page) : js (auth_handlers * login_fields) :=
  checkAuthStatus JSON_parse ;;
  fun w =>
    let logout_link :=
      existsb (has_class "logout-link") (auth_links (page w)) || other_logout_link p in
    (let* f := setupRememberMe (form_fields p) in
     ret ({| login_handler := has_login_form p;
             register_handler := has_register_form p;
             logout_handler := logout_link;
             toggle_handlers := List.length (toggle_buttons p);
             remember_handler := match remember_checkbox (form_fields p) with
                                 | Some _ => true
                                 | None => false
                                 end |}, f)) w.

End Startup.

(** ** The application script: theme and language preferences *)

(** A [select] element: the values of its options and its value. *)
Record select := {
  select_options : list string;
  select_value : string
}.

(** [select.value = v]: the option with that value is selected; when
    there is none the value becomes empty. *)
Definition select_assign (v : string) (s : select) : select :=
  {| select_options := select_options s;
     select_value := if existsb (String.eqb v) (select_options s) then v else EmptyString |}.

(** The elements of the page that [initializeApp] and the theme functions
    touch: the text of [#currentYear], the [#languageSelect], and the
    [data-theme] attribute of the root element. *)
Record app_ui := {
  year_span : option string;
  language_select : option select;
  data_theme : option string
}.

Definition with_theme (t : option string) (ui : app_ui) : app_ui :=
  {| year_span := year_span ui; language_select := language_select ui; data_theme := t |}.

Definition enableDarkMode (ui : app_ui) : js app_ui :=
  setItem "theme" "dark" ;;
  ret (with_theme (Some "dark") ui).

Definition disableDarkMode (ui : app_ui) : js app_ui :=
  setItem "theme" "light" ;;
  ret (with_theme None ui).

Definition toggleDarkMode (ui : app_ui) : js app_ui :=
  match data_theme ui with
  | Some t => if String.eqb t "dark" then disableDarkMode ui else enableDarkMode ui
  | None => enableDarkMode ui
  end.

(** [initializeApp].  [year] is [new Date().getFullYear()], [prefersDark]
    the result of the [prefers-color-scheme] media query.  The tooltips
    and the animations only register listeners. *)
Definition initializeApp (year : Z) (prefersDark : bool) (ui : app_ui) : js app_ui :=
  let ui := {| year_span := match year_span ui with
                            | Some _ => Some (string_of_Z year)
                            | None => None
                            end;
               language_select := language_select ui;
               data_theme := data_theme ui |} in
  let* savedLang := getItem "preferredLanguage" in
  let ui := if truthy savedLang then
              {| year_span := year_span ui;
                 language_select :=
                   match language_select ui with
                   | Some s => Some (select_assign (text_of savedLang) s)
                   | None => None
                   end;
                 data_theme := data_theme ui |}
            else ui in
  let* savedTheme := getItem "theme" in
  if strict_eq_text savedTheme "dark" || (negb (truthy savedTheme) && prefersDark)
  then enableDarkMode ui
  else ret ui.

(** ** The application script: API calls *)

Record api_config := {
  cfg_method : string;
  cfg_headers : list (string * string);
  cfg_body : option string
}.

(** What the server side does with the call: the request fails, or a
    response arrives with its [ok] flag, its status and a body, [None]
    when the body is not JSON. *)
Inductive api_result :=
| ApiUnreachable
| ApiResponse (ok : bool) (status : Z) (body : option jsval).

(** What [makeApiCall] throws: the error it raises itself for a response
    that is not ok, or the one of [fetch] or of [response.json()]. *)
Inductive api_failure :=
| ApiCallFailed (message : string)
| ApiRejected (e : error).

(** [localStorage.getItem(key)] as a value. *)
Definition stored (key : string) (st : gmap string string) : jsval :=
  match st !! key with
  | Some s => JStr s
  | None => JNull
  end.

(** The [config] that [makeApiCall] builds from the store and its
    arguments. *)
Definition api_request_config (st : gmap string string) (method : string) (data : jsval)
    : api_config :=
  let headers := [("Content-Type", "application/json")] in
  let token := stored "auth_token" st in
  let headers := if truthy token
                 then (headers ++ [("Authorization", "Bearer " +:+ text_of token)])%list
                 else headers in
  {| cfg_method := method;
     cfg_headers := headers;
     cfg_body := if truthy data &&
                    (String.eqb method "POST" || String.eqb method "PUT" ||
                     String.eqb method "PATCH")
                 then Some (text_of (JSON_stringify data))
                 else None |}.

(** [makeApiCall]: the endpoint and configuration given to [fetch], and
    the value returned or the error thrown; every error is logged, then
    thrown again. *)
Definition makeApiCall (endpoint method : string) (data : jsval) (net : api_result)
    : world -> ((string * api_config) * (jsval + api_failure)) * world :=
  fun w =>
    let config := api_request_config (localStorage w) method data in
    let answer :=
      match net with
      | ApiUnreachable => inr (ApiRejected TypeError)
      | ApiResponse false status _ =>
          inr (ApiCallFailed ("API call failed: " +:+ string_of_Z status))
      | ApiResponse true _ None => inr (ApiRejected SyntaxError)
      | ApiResponse true _ (Some v) => inl v
      end in
    match answer with
    | inl v => (((endpoint, config), inl v), w)
    | inr e => (((endpoint, config), inr e), with_console "API call error:" w)
    end.

(** *** Vocabulary for the remaining paths of the handlers *)

(** An ok response whose body can be read: the success path of login. *)
Definition login_accepted (net : fetch_result) : bool :=
  match net with
  | Response true (Some (JUndefined | JNull)) => false
  | Response true (Some _) => true
  | _ => false
  end.

(** The value assigned to [location.href] after a login whose response
    has these fields. *)
Definition redirect_value (fields : list (string * jsval)) : jsval :=
  js_or (assoc "redirect" fields) (JStr "/home").

(** An accepted login gets as far as the [remember] checkbox: storing the
    token, when the response has one, did not raise. *)
Definition reaches_remember (net : fetch_result) : bool :=
  match net with
  | Response true (Some (JObj fields)) => token_storable fields
  | _ => login_accepted net
  end.

(** The redirect target of a response can be assigned: it converts to a
    string, and the browser resolves that string. *)
Definition redirect_assignable (resolves : string -> bool)
    (fields : list (string * jsval)) : bool :=
  convertible (redirect_value fields) && resolves (text_of (redirect_value fields)).

(** An accepted login runs to its end: neither storing the token nor
    assigning the redirect target raises. *)
Definition login_completes (resolves : string -> bool) (net : fetch_result) : bool :=
  match net with
  | Response true (Some (JObj fields)) =>
      token_storable fields && redirect_assignable resolves fields
  | _ => login_accepted net && resolves "/home"
  end.

(** Where a successful login goes. *)
Definition redirect_target (net : fetch_result) : string :=
  match net with
  | Response true (Some (JObj fields)) => text_of (redirect_value fields)
  | _ => "/home"
  end.

(** The world after the writes of an accepted login whose token can be
    stored, before the navigation. *)
Definition login_writes (remember : option bool) (fields : list (string * jsval))
    (w : world) : world :=
  let w := if truthy (assoc "token" fields)
           then with_storage (fun m => <["auth_token" := text_of (assoc "token" fields)]> m) w
           else w in
  let w := if truthy (assoc "user" fields)
           then with_storage
                  (fun m => <["user_data" := text_of (JSON_stringify (assoc "user" fields))]> m) w
           else w in
  match remember with
  | Some true => with_storage (fun m => <["remember_me" := "true"]> m) w
  | _ => w
  end.

(** The value that [Object.fromEntries] keeps for a name: the one of the
    last entry of that name. *)
Definition last_value (name : string) (entries : list (string * string)) : option string :=
  match find (fun kv : string * string => String.eqb kv.1 name) (rev entries) with
  | Some kv => Some kv.2
  | None => None
  end.

(** The registration form passes the two client-side checks. *)
Definition registration_valid (password confirmPassword : jstring) : bool :=
  jstring_eqb password confirmPassword && Nat.leb 6 (List.length password).

Definition register_request (entries : list (string * string)) : request :=
  {| url := "/register"; method := "POST";
     payload := Some (delete "confirm_password" (fromEntries entries)) |}.

(** The notification text of a registration that the server side does not
    accept. *)
Definition register_failure_message (net : fetch_result) : string :=
  match net with
  | Response false (Some body) => rejection_message "Registration failed" body
  | _ => network_error_message
  end.

(** An ok response whose body is JSON: the success path of registration,
    which does not look into the body. *)
Definition register_accepted (net : fetch_result) : bool :=
  match net with
  | Response true (Some _) => true
  | _ => false
  end.

Definition registration_success : string :=
  "Registration successful! Redirecting to login...".

Definition logout_prompt : string := "Are you sure you want to logout?".

Definition logout_request : request :=
  {| url := "/logout"; method := "POST"; payload := None |}.

(** Everything of the world except the links, the bound fields and the
    avatars, which are what the two interface projections write. *)
Definition outside_projection (w : world)
    : gmap string string * option string * list request * list string * list string *
      list (Z * timer_action) * bool * list string * list string :=
  (localStorage w, location_href w, requests w, dialogs w, console w, timers w,
   auth_form (page w), auth_errors (page w), auth_successes (page w)).

(** A [forEach] whose body rewrites one element and may raise, as a
    function of the list: the elements up to the first failure are
    rewritten, the others are kept, and the failure is reported. *)
Fixpoint sweep {A} (f : A -> outcome A) (l : list A) : list A * option error :=
  match l with
  | [] => ([], None)
  | x :: rest =>
      match f x with
      | Returned y => let '(rest', e) := sweep f rest in (y :: rest', e)
      | Thrown e => (x :: rest, Some e)
      end
  end.

Definition blank_world : world :=
  {| localStorage := ∅;
     page := {| auth_links := []; user_fields := []; avatars := [];
                auth_form := false; auth_errors := []; auth_successes := [] |};
     location_href := None; requests := []; dialogs := []; console := [];
     timers := [] |}.

(** What the two binding loops do to one element; neither reads nor
    writes the world. *)
Definition field_binding (userData : jsval) (f : user_field) : outcome user_field :=
  (bind_user_field userData f blank_world).1.

Definition avatar_binding (userData : jsval) (text : jstring) : outcome jstring :=
  (bind_avatar userData text blank_world).1.

(** [updateUIForLoggedInUser] as one function of the world: the links,
    then the bound fields, then the avatars, stopping at the first
    failure. *)
Definition project_user (userData : jsval) (w : world) : outcome unit * world :=
  let w1 := with_page (with_links (map link_for_user)) w in
  let '(fs, e1) := sweep (field_binding userData) (user_fields (page w)) in
  let w2 := with_page (with_user_fields fs) w1 in
  match e1 with
  | Some e => (Thrown e, w2)
  | None =>
      let '(avs, e2) := sweep (avatar_binding userData) (avatars (page w)) in
      let w3 := with_page (with_avatars avs) w2 in
      match e2 with
      | Some e => (Thrown e, w3)
      | None => (Returned tt, w3)
      end
  end.

(** Only activity and countdown events, no write to the store. *)
Definition quiet (ev : event) : bool :=
  match ev with
  | Activity | Elapsed _ => true
  | StorageSet _ _ | StorageRemove _ => false
  end.

(** The methods for which [makeApiCall] attaches a body. *)
Definition sends_body (method : string) : bool :=
  String.eqb method "POST" || String.eqb method "PUT" || String.eqb method "PATCH".

(** *** More sample values *)

Definition login_fields_blank : login_fields :=
  {| remember_checkbox := Some false; username_input := Some EmptyString |}.

Definition eye_toggle : toggle_button :=
  {| sibling_type := Some "password"; icon_classes := Some ["fas"; "fa-eye"];
     aria_label := Some "Show password" |}.

Definition profile_page : document :=
  {| auth_links := [ {| link_classes := ["auth-link"; "login-link"]; link_display := "block" |};
                     {| link_classes := ["auth-link"; "profile-link"]; link_display := "none" |} ];
     user_fields := [ {| field_name := "username"; field_is_control := false;
                         field_value := EmptyString; field_text := "?" |};
                      {| field_name := "email"; field_is_control := true;
                         field_value := EmptyString; field_text := EmptyString |} ];
     avatars := [units "?"];
     auth_form := false; auth_errors := []; auth_successes := [] |}.


(** A page with an avatar and no [data-user-field] element. *)
Definition avatar_page : document :=
  {| auth_links := [ {| link_classes := ["auth-link"; "login-link"]; link_display := "block" |} ];
     user_fields := [];
     avatars := [units "?"];
     auth_form := false; auth_errors := []; auth_successes := [] |}.

Definition light_ui : app_ui :=
  {| year_span := Some "2020"; language_select := Some {| select_options := ["en"; "hi"; "ta"];
                                                           select_value := "en" |};
     data_theme := None |}.

(** A stand-in for the floating point percentage, exact on the six
    scores. *)
Definition whole_percent (s m : Z) : string := string_of_Z (s * 100 / m) +:+ "%".

Definition dark_ui : app_ui :=
  {| year_span := None; language_select := None; data_theme := Some "dark" |}.

Definition guest_page : auth_page :=
  {| has_login_form := true; has_register_form := false; other_logout_link := false;
     toggle_buttons := [ {| sibling_type := Some "password";
                            icon_classes := Some ["fas"; "fa-eye"];
                            aria_label := Some "Show password" |} ];
     form_fields := {| remember_checkbox := Some false;
                       username_input := Some EmptyString |} |}.

(** The listeners that start-up registers on a page. *)
Definition handlers_for (p : auth_page) (links : list auth_link) : auth_handlers :=
  {| login_handler := has_login_form p;
     register_handler := has_register_form p;
     logout_handler := existsb (has_class "logout-link") links || other_logout_link p;
     toggle_handlers := List.length (toggle_buttons p);
     remember_handler := match remember_checkbox (form_fields p) with
                         | Some _ => true
                         | None => false
                         end |}.

(** The [data-theme] after a toggle. *)
Definition toggled_theme (t : option string) : option string :=
  match t with
  | Some s => if String.eqb s "dark" then None else Some "dark"
  | None => Some "dark"
  end.

Definition accepted (token user : jsval) : fetch_result :=
  Response true (Some (JObj [("token", token); ("user", user)])).

(** * Properties *)

(** ** Password strength *)

Lemma is_lower_spec c : is_lower c = lowercase_letter c.
Proof. reflexivity. Qed.

Lemma is_upper_spec c : is_upper c = uppercase_letter c.
Proof. reflexivity. Qed.

Lemma is_digit_spec c : is_digit c = digit c.
Proof. reflexivity. Qed.

Lemma is_special_spec c : is_special c = non_alphanumeric c.
Proof.
  unfold is_special, non_alphanumeric.
  rewrite is_lower_spec, is_upper_spec, is_digit_spec.
  destruct (lowercase_letter c), (uppercase_letter c), (digit c); reflexivity.
Qed.

Lemma regex_test_contains code_class spec_class s :
  (forall c, code_class c = spec_class c) ->
  regex_test code_class s = contains spec_class s.
Proof.
  intros Hc. unfold contains.
  induction s as [|c rest IH]; simpl; [reflexivity|].
  now rewrite Hc, IH.
Qed.

(** The report as a function of the five tests of the source. *)
Lemma checkPasswordStrength_cases password :
  categories password =
    [ (Nat.leb 8 (List.length password), "At least 8 characters");
      (regex_test is_lower password, "Lowercase letters");
      (regex_test is_upper password, "Uppercase letters");
      (regex_test is_digit password, "Numbers");
      (regex_test is_special password, "Special characters") ].
Proof.
  unfold categories.
  rewrite (regex_test_contains _ _ password is_lower_spec),
          (regex_test_contains _ _ password is_upper_spec),
          (regex_test_contains _ _ password is_digit_spec),
          (regex_test_contains _ _ password is_special_spec).
  reflexivity.
Qed.

(** C6: the checker is a total function of the string, taken as any
    sequence of UTF-16 code units; its score is the number of satisfied
    conditions among the five, its maximum is 5, its feedback is "Strong
    password!" when nothing is missing and otherwise "Add: " followed by
    exactly the missing categories; on the empty string the score is 0 and
    all five categories are listed. *)
Theorem checkPasswordStrength_counts_categories (password : jstring) :
  score (checkPasswordStrength password) = satisfied_count password /\
  maxScore (checkPasswordStrength password) = 5%Z /\
  feedback (checkPasswordStrength password) =
    match missing password with
    | [] => "Strong password!"
    | gaps => "Add: " +:+ join ", " gaps
    end /\
  checkPasswordStrength [] =
    {| score := 0; maxScore := 5;
       feedback := "Add: At least 8 characters, Lowercase letters, Uppercase letters, Numbers, Special characters" |}.
Proof.
  unfold satisfied_count, satisfied, missing.
  rewrite checkPasswordStrength_cases.
  unfold checkPasswordStrength.
  destruct (Nat.leb 8 (List.length password)),
           (regex_test is_lower password),
           (regex_test is_upper password),
           (regex_test is_digit password),
           (regex_test is_special password);
    repeat split; reflexivity.
Qed.

Lemma score_sum password :
  score (checkPasswordStrength password) =
    (Z.b2z (Nat.leb 8 (List.length password)) +
     Z.b2z (regex_test is_lower password) +
     Z.b2z (regex_test is_upper password) +
     Z.b2z (regex_test is_digit password) +
     Z.b2z (regex_test is_special password))%Z.
Proof.
  unfold checkPasswordStrength.
  destruct (Nat.leb 8 (List.length password)),
           (regex_test is_lower password),
           (regex_test is_upper password),
           (regex_test is_digit password),
           (regex_test is_special password); reflexivity.
Qed.

Lemma implb_b2z (a b : bool) : implb a b = true -> (Z.b2z a <= Z.b2z b)%Z.
Proof. destruct a, b; simpl; intros H; try lia; discriminate H. Qed.

Lemma strong_iff_full password :
  feedback (checkPasswordStrength password) = "Strong password!" <->
  score (checkPasswordStrength password) = 5%Z.
Proof.
  unfold checkPasswordStrength.
  destruct (Nat.leb 8 (List.length password)),
           (regex_test is_lower password),
           (regex_test is_upper password),
           (regex_test is_digit password),
           (regex_test is_special password);
    simpl; split; intros H; solve [reflexivity | discriminate H].
Qed.

(** C7: the score lies between 0 and 5; a string that satisfies every
    condition another one satisfies scores at least as much; the feedback
    is "Strong password!" exactly when the score is 5. *)
Theorem strength_score_bounded_monotone (p q : jstring) :
  (0 <= score (checkPasswordStrength p) <= 5)%Z /\
  (satisfies_more p q = true ->
   (score (checkPasswordStrength p) <= score (checkPasswordStrength q))%Z) /\
  (feedback (checkPasswordStrength p) = "Strong password!" <->
   score (checkPasswordStrength p) = 5%Z).
Proof.
  split; [|split].
  - rewrite score_sum.
    destruct (Nat.leb 8 (List.length p)), (regex_test is_lower p),
             (regex_test is_upper p), (regex_test is_digit p),
             (regex_test is_special p); simpl; lia.
  - unfold satisfies_more, satisfied.
    rewrite !checkPasswordStrength_cases, !score_sum. simpl.
    rewrite !andb_true_iff. intros (H1 & H2 & H3 & H4 & H5 & _).
    apply implb_b2z in H1, H2, H3, H4, H5. lia.
  - apply strong_iff_full.
Qed.

Lemma strength_score_bounded_monotone_witness :
  satisfies_more (units "abc") (units "abcDEF12") = true /\
  (score (checkPasswordStrength (units "abc")) <=
   score (checkPasswordStrength (units "abcDEF12")))%Z.
Proof.
  split; [reflexivity|].
  apply (strength_score_bounded_monotone (units "abc") (units "abcDEF12")). reflexivity.
Defined.

(** ** Notifications *)

(** What [showAuthError] changes: the error notifications of the page and,
    when one is inserted, the timer that will dismiss it. *)
Lemma showAuthError_effect message w :
  exists w',
    showAuthError message w = (Returned tt, w') /\
    localStorage w' = localStorage w /\
    location_href w' = location_href w /\
    requests w' = requests w /\
    auth_form (page w') = auth_form (page w) /\
    auth_errors (page w') = if auth_form (page w) then [message] else [].
Proof.
  unfold showAuthError, bind, modify, setTimeout, ret. simpl.
  destruct (auth_form (page w)) eqn:Hform; simpl; eexists; repeat split; exact Hform.
Qed.

(** ** Registration *)

Lemma jstring_eqb_eq (a b : jstring) : jstring_eqb a b = true <-> a = b.
Proof.
  revert b. induction a as [|x a IH]; intros [|y b]; simpl; split; intros H;
    try discriminate H; try reflexivity.
  - apply andb_true_iff in H as [Hx Hrest].
    apply N.eqb_eq in Hx. apply IH in Hrest. congruence.
  - injection H as -> ->. rewrite N.eqb_refl. simpl. now apply IH.
Qed.

(** C5, as the code has it: a registration whose confirmation differs
    from the password, or whose password has fewer than 6 code units,
    ends in [showAuthError] with a validation message ("Passwords do not
    match" for a mismatch) and sends nothing to the server; the earlier
    error notifications are removed, and the message is the one
    notification shown when the page has an [.auth-form] to hold it (none
    is shown on a page without one). *)
Theorem register_rejects_before_network
    (password confirmPassword : jstring) (entries : list (string * string))
    (net : fetch_result) (w : world) :
  password <> confirmPassword \/ (List.length password < 6)%nat ->
  exists message,
    register_submit password confirmPassword entries net w = showAuthError message w /\
    (password <> confirmPassword -> message = "Passwords do not match") /\
    requests (exec (register_submit password confirmPassword entries net) w) = requests w /\
    auth_errors (page (exec (register_submit password confirmPassword entries net) w)) =
      (if auth_form (page w) then [message] else []).
Proof.
  intros Hbad. unfold exec, register_submit.
  destruct (jstring_eqb password confirmPassword) eqn:Heq; simpl.
  - apply jstring_eqb_eq in Heq.
    destruct Hbad as [Hne | Hshort]; [contradiction|].
    apply Nat.ltb_lt in Hshort. rewrite Hshort.
    exists "Password must be at least 6 characters long".
    destruct (showAuthError_effect "Password must be at least 6 characters long" w)
      as (w' & -> & _ & _ & Hreq & _ & Herr).
    simpl. repeat split; [contradiction | exact Hreq | exact Herr].
  - exists "Passwords do not match".
    destruct (showAuthError_effect "Passwords do not match" w)
      as (w' & -> & _ & _ & Hreq & _ & Herr).
    simpl. repeat split; [exact Hreq | exact Herr].
Qed.

Lemma register_rejects_before_network_witness :
  (exists message,
     register_submit (units "abc") (units "abc") credentials (Response true (Some JNull))
                     (fresh ∅ login_page) =
       showAuthError message (fresh ∅ login_page) /\
     requests (exec (register_submit (units "abc") (units "abc") credentials
                       (Response true (Some JNull)))
                    (fresh ∅ login_page)) = []) /\
  auth_errors (page (exec (register_submit (units "secret1") (units "secret2") credentials
                             NetworkError)
                          (fresh ∅ login_page))) =
    ["Passwords do not match"].
Proof.
  split.
  - destruct (register_rejects_before_network (units "abc") (units "abc") credentials
                (Response true (Some JNull)) (fresh ∅ login_page))
      as (message & Hrun & _ & Hreq & _).
    + right. simpl. lia.
    + exists message. split; [exact Hrun | exact Hreq].
  - destruct (register_rejects_before_network (units "secret1") (units "secret2") credentials
                NetworkError (fresh ∅ login_page))
      as (message & _ & Hmessage & _ & Hshown).
    + left. discriminate.
    + rewrite Hshown, Hmessage; [reflexivity | discriminate].
Defined.

(** C5 as worded fails: on a page without an [.auth-form] a registration
    whose confirmation differs is stopped before the network, and no
    validation error is shown. *)
Lemma register_mismatch_without_auth_form : ~ registration_always_shows_error.
Proof.
  intros Hclaim.
  destruct (Hclaim (units "secret1") (units "secret2") credentials NetworkError
              (fresh ∅ bare_page)) as (_ & message & Hshown & _).
  - left. discriminate.
  - vm_compute in Hshown. discriminate Hshown.
Qed.

(** C9, as the code has it: when the confirmation differs and the
    password is also too short, the handler reports the mismatch: it is
    [showAuthError] with "Passwords do not match", which is the one
    notification shown when the page has an [.auth-form] (none is shown
    on a page without one), and the length message is not displayed. *)
Theorem register_mismatch_takes_precedence
    (password confirmPassword : jstring) (entries : list (string * string))
    (net : fetch_result) (w : world) :
  password <> confirmPassword ->
  (List.length password < 6)%nat ->
  register_submit password confirmPassword entries net w =
    showAuthError "Passwords do not match" w /\
  auth_errors (page (exec (register_submit password confirmPassword entries net) w)) =
    (if auth_form (page w) then ["Passwords do not match"] else []) /\
  ~ In "Password must be at least 6 characters long"
       (auth_errors (page (exec (register_submit password confirmPassword entries net) w))).
Proof.
  intros Hne _.
  assert (Hrun : register_submit password confirmPassword entries net w =
                 showAuthError "Passwords do not match" w).
  { unfold register_submit.
    destruct (jstring_eqb password confirmPassword) eqn:Heq; [|reflexivity].
    apply jstring_eqb_eq in Heq. contradiction. }
  unfold exec. rewrite Hrun.
  destruct (showAuthError_effect "Passwords do not match" w)
    as (w' & -> & _ & _ & _ & _ & Herr).
  simpl. rewrite Herr. repeat split.
  destruct (auth_form (page w)); simpl; [|tauto].
  intros [H | []]. discriminate H.
Qed.

Lemma register_mismatch_takes_precedence_witness :
  register_submit (units "abc") (units "abd") credentials NetworkError (fresh ∅ login_page) =
    showAuthError "Passwords do not match" (fresh ∅ login_page).
Proof.
  apply (register_mismatch_takes_precedence (units "abc") (units "abd") credentials
           NetworkError (fresh ∅ login_page)).
  - intros H. discriminate H.
  - simpl. lia.
Defined.

(** C9 as worded fails: on a page without an [.auth-form] a registration
    that fails both checks shows no error at all. *)
Lemma short_mismatch_without_auth_form : ~ mismatch_always_shown.
Proof.
  intros Hclaim.
  specialize (Hclaim (units "abc") (units "abd") [] (Response true None)
                (fresh ∅ bare_page)).
  assert (Hshown : auth_errors (page (exec (register_submit (units "abc") (units "abd") []
                                              (Response true None))
                                           (fresh ∅ bare_page))) =
                   ["Passwords do not match"]).
  { apply Hclaim; [discriminate | simpl; lia]. }
  vm_compute in Hshown. discriminate Hshown.
Qed.

(** ** Login *)

Lemma present_insert_eq key v st : present key (<[key := v]> st) = true.
Proof. unfold present. now rewrite lookup_insert_eq. Qed.

Lemma present_insert_ne key k v st :
  k <> key -> present key (<[k := v]> st) = present key st.
Proof. intros Hne. unfold present. now rewrite lookup_insert_ne. Qed.

Lemma showAuthError_storage message w :
  localStorage (showAuthError message w).2 = localStorage w.
Proof. destruct (showAuthError_effect message w) as (w' & -> & H & _). exact H. Qed.

Lemma showAuthError_location message w :
  location_href (showAuthError message w).2 = location_href w.
Proof. destruct (showAuthError_effect message w) as (w' & -> & _ & H & _). exact H. Qed.

Lemma showAuthError_errors message w :
  auth_errors (page (showAuthError message w).2) =
    if auth_form (page w) then [message] else [].
Proof.
  destruct (showAuthError_effect message w) as (w' & -> & _ & _ & _ & _ & H). exact H.
Qed.

(** The decimal form of an index starts with a digit, so a key that
    starts with a letter denotes no index. *)
Lemma string_of_index_head (i : nat) :
  exists d rest, string_of_Z (Z.of_nat i) = String d rest /\ is_digit (unit_of d) = true.
Proof.
  unfold string_of_Z.
  destruct (Z.of_nat i) as [|p|p] eqn:Hi; [| |lia]; unfold Z.to_int; simpl.
  - eauto.
  - destruct (Pos.to_uint p); simpl; eauto.
Qed.

Lemma index_of_key_word c rest n :
  is_digit (unit_of c) = false -> index_of_key (String c rest) n = None.
Proof.
  intros Hc. unfold index_of_key. generalize 0.
  induction n as [|n IH]; intros start; simpl; [reflexivity|].
  destruct (string_of_index_head start) as (d & rest' & -> & Hd).
  simpl. destruct (Ascii.eqb_spec d c) as [->|_]; [congruence|].
  apply IH.
Qed.

(** The conversion, as a function of the world. *)
Lemma ToString_run v w :
  ToString v w = if convertible v then (Returned (text_of v), w) else (Thrown TypeError, w).
Proof. unfold ToString. destruct (convertible v); reflexivity. Qed.

(** The notification of a value: the earlier ones are removed in any
    case; the conversion that raises leaves no notification. *)
Lemma showAuthError_of_run message w :
  showAuthError_of message w =
    if convertible message
    then showAuthError (text_of message) (with_page (with_errors (fun _ => [])) w)
    else (Thrown TypeError, with_page (with_errors (fun _ => [])) w).
Proof.
  unfold showAuthError_of, bind, modify. simpl. rewrite ToString_run.
  destruct (convertible message); reflexivity.
Qed.

Ltac run_login :=
  unfold exec, result_of, login_submit, try_catch, bind, fetch, response_json, get_prop,
         ret, throw, modify, setItem, navigate, console_error;
  simpl;
  rewrite ?index_of_key_word by reflexivity;
  simpl.

(** The assignment of a redirect target, as a function of the world. *)
Lemma assign_location_run resolves target w :
  assign_location resolves target w =
    if resolves target then (Returned tt, with_location target w)
    else (Thrown DOMException, w).
Proof. unfold assign_location. destruct (resolves target); reflexivity. Qed.

(** An accepted login whose body is an object: the three writes, then the
    navigation; a token that cannot be converted, or a redirect target
    that cannot be converted or resolved, sends the handler to its
    [catch] block, with the writes made so far left in the store. *)
Lemma login_object_run resolves entries remember fields w :
  login_submit resolves entries remember (Response true (Some (JObj fields))) w =
    if token_storable fields then
      if redirect_assignable resolves fields
      then (Returned tt,
            with_location (text_of (redirect_value fields))
              (login_writes remember fields (with_request (login_request entries) w)))
      else showAuthError network_error_message
             (with_console "Login error:"
                (login_writes remember fields (with_request (login_request entries) w)))
    else showAuthError network_error_message
           (with_console "Login error:" (with_request (login_request entries) w)).
Proof.
  unfold token_storable, login_writes, redirect_assignable, redirect_value.
  run_login.
  destruct (truthy (assoc "token" fields)); simpl;
    [rewrite ToString_run; destruct (convertible (assoc "token" fields)); simpl;
     [|reflexivity]|];
    destruct (truthy (assoc "user" fields)), remember as [[|]|]; unfold modify; simpl;
    rewrite ToString_run;
    destruct (convertible (js_or (assoc "redirect" fields) (JStr "/home")));
    simpl; try reflexivity;
    rewrite assign_location_run;
    destruct (resolves (text_of (js_or (assoc "redirect" fields) (JStr "/home"))));
    reflexivity.
Qed.

(** An accepted login whose body is not an object has none of the
    properties that the handler looks for. *)
Lemma login_plain_run resolves entries remember body w :
  login_accepted (Response true (Some body)) = true ->
  (forall fields, body <> JObj fields) ->
  login_submit resolves entries remember (Response true (Some body)) w =
    if resolves "/home"
    then (Returned tt,
          with_location "/home"
            (login_writes remember [] (with_request (login_request entries) w)))
    else showAuthError network_error_message
           (with_console "Login error:"
              (login_writes remember [] (with_request (login_request entries) w))).
Proof.
  intros Hacc Hplain.
  destruct body as [| | | | | |fields]; try discriminate Hacc;
    try (exfalso; eapply Hplain; reflexivity);
    run_login; destruct remember as [[|]|]; simpl;
    rewrite assign_location_run; destruct (resolves "/home"); reflexivity.
Qed.

(** A login that is not accepted is a call of [showAuthError], after the
    request and, on the [catch] path, a console line; the earlier
    notifications may be gone already. *)
Lemma failed_login_run resolves entries remember net w :
  login_accepted net = false ->
  exists w1,
    login_submit resolves entries remember net w = showAuthError (failure_message net) w1 /\
    localStorage w1 = localStorage w /\
    location_href w1 = location_href w /\
    auth_form (page w1) = auth_form (page w) /\
    auth_links (page w1) = auth_links (page w) /\
    requests w1 = (requests w ++ [login_request entries])%list /\
    dialogs w1 = dialogs w.
Proof.
  pose (sent := with_request (login_request entries) w).
  pose (cleared := with_page (with_errors (fun _ => [])) sent).
  destruct net as [|[|] [body|]]; simpl; intros Hrej.
  - exists (with_console "Login error:" sent). repeat split.
  - destruct body; try discriminate Hrej;
      exists (with_console "Login error:" sent); repeat split.
  - exists (with_console "Login error:" sent). repeat split.
  - destruct body as [| | | | | |fields];
      try (exists (with_console "Login error:" sent); repeat split; fail);
      try (exists cleared; split; [|repeat split];
           subst cleared sent; unfold login_request;
           run_login; rewrite showAuthError_of_run; simpl;
           match goal with
           | |- context [showAuthError ?m ?x] =>
               destruct (showAuthError_effect m x) as (w' & -> & _)
           end; reflexivity).
    unfold rejection_message.
    destruct (convertible (js_or (assoc "message" fields) (JStr "Login failed"))) eqn:Hc.
    + exists cleared. split; [|repeat split].
      run_login. fold (login_request entries). fold sent.
      rewrite showAuthError_of_run, Hc. fold cleared.
      destruct (showAuthError_effect
                  (text_of (js_or (assoc "message" fields) (JStr "Login failed"))) cleared)
        as (w' & -> & _). reflexivity.
    + exists (with_console "Login error:" cleared). split; [|repeat split].
      run_login. fold (login_request entries). fold sent.
      rewrite showAuthError_of_run, Hc. reflexivity.
  - exists (with_console "Login error:" sent). repeat split.
Qed.

Lemma login_failed_unaccepted net : login_failed net = true -> login_accepted net = false.
Proof. destruct net as [|[|] [body|]]; simpl; intros H; solve [reflexivity | discriminate H]. Qed.

(** C3, as the code has it: after a failed login (a response that is not
    ok, or a network error) the store is unchanged and nothing is
    navigated to; the earlier error notifications are removed, and the new
    one is the single notification shown when the page has an [.auth-form]
    to hold it (none is shown on a page without one).  Its text is the
    message of the response, the fallback "Login failed", or the network
    message when the handler ended in its [catch] block. *)
Theorem failed_login_leaves_session (resolves : string -> bool)
    (entries : list (string * string)) (remember : option bool)
    (net : fetch_result) (w : world) :
  login_failed net = true ->
  localStorage (exec (login_submit resolves entries remember net) w) = localStorage w /\
  location_href (exec (login_submit resolves entries remember net) w) = location_href w /\
  auth_errors (page (exec (login_submit resolves entries remember net) w)) =
    (if auth_form (page w) then [failure_message net] else []).
Proof.
  intros Hfail.
  destruct (failed_login_run resolves entries remember net w (login_failed_unaccepted net Hfail))
    as (w1 & Hrun & Hst & Hloc & Hform & _).
  unfold exec. rewrite Hrun.
  rewrite showAuthError_storage, showAuthError_location, showAuthError_errors.
  rewrite Hform. auto.
Qed.

Lemma failed_login_leaves_session_witness :
  auth_errors (page (exec (login_submit path_only credentials (Some true)
                             (Response false (Some (JObj [("message", JStr "Invalid credentials")]))))
                          (fresh signed_in login_page))) =
    ["Invalid credentials"].
Proof.
  apply (failed_login_leaves_session path_only credentials (Some true)
           (Response false (Some (JObj [("message", JStr "Invalid credentials")])))
           (fresh signed_in login_page)).
  reflexivity.
Defined.

(** C3 as worded fails: on a page without an [.auth-form] a rejected login
    shows no notification. *)
Lemma failed_login_without_auth_form : ~ failed_login_shows_one_error.
Proof.
  intros Hclaim.
  destruct (Hclaim path_only credentials None
              (Response false (Some (JObj [("message", JStr "Invalid credentials")])))
              (fresh ∅ bare_page) eq_refl)
    as (_ & _ & message & Hshown).
  vm_compute in Hshown. discriminate Hshown.
Qed.

(** The two session keys after the writes of an accepted login. *)
Lemma login_writes_present remember fields w :
  present "auth_token" (localStorage (login_writes remember fields w)) =
    truthy (assoc "token" fields) || present "auth_token" (localStorage w) /\
  present "user_data" (localStorage (login_writes remember fields w)) =
    truthy (assoc "user" fields) || present "user_data" (localStorage w).
Proof.
  unfold login_writes.
  destruct (truthy (assoc "token" fields)), (truthy (assoc "user" fields)),
           remember as [[|]|]; simpl;
    repeat first [ rewrite present_insert_eq
                 | rewrite present_insert_ne by discriminate ];
    auto.
Qed.

(** The store after a login attempt: the writes made before the handler
    returned or reached its [catch] block. *)
Lemma login_store resolves entries remember net w :
  localStorage (exec (login_submit resolves entries remember net) w) =
    match net with
    | Response true (Some (JObj fields)) =>
        if token_storable fields
        then localStorage (login_writes remember fields w)
        else localStorage w
    | _ =>
        if login_accepted net
        then localStorage (login_writes remember [] w)
        else localStorage w
    end.
Proof.
  assert (Hsent : forall fields,
             localStorage (login_writes remember fields
                             (with_request (login_request entries) w)) =
             localStorage (login_writes remember fields w)).
  { intros fields. unfold login_writes.
    destruct (truthy (assoc "token" fields)), (truthy (assoc "user" fields)),
             remember as [[|]|]; reflexivity. }
  destruct (login_accepted net) eqn:Hacc.
  - destruct net as [|[|] [body|]]; try discriminate Hacc.
    destruct body as [| | | | | |fields]; try discriminate Hacc;
      try (unfold exec; rewrite login_plain_run by (reflexivity || discriminate);
           destruct (resolves "/home"); rewrite ?showAuthError_storage;
           apply (Hsent []); fail).
    unfold exec. rewrite login_object_run.
    destruct (token_storable fields);
      [destruct (redirect_assignable resolves fields)|];
      rewrite ?showAuthError_storage; simpl; rewrite ?Hsent; reflexivity.
  - destruct (failed_login_run resolves entries remember net w Hacc) as (w1 & Hrun & Hst & _).
    unfold exec. rewrite Hrun, showAuthError_storage, Hst.
    destruct net as [|[|] [body|]]; try reflexivity.
    destruct body; try reflexivity. discriminate Hacc.
Qed.

(** Which of the two session keys a login attempt leaves set: those that
    were set, and those that the handler writes. *)
Lemma login_writes_keys resolves entries remember net w :
  present "auth_token" (localStorage (exec (login_submit resolves entries remember net) w)) =
    stores_token net || present "auth_token" (localStorage w) /\
  present "user_data" (localStorage (exec (login_submit resolves entries remember net) w)) =
    stores_user net || present "user_data" (localStorage w).
Proof.
  rewrite login_store.
  destruct net as [|[|] [body|]]; simpl; auto.
  destruct body as [| | | | | |fields]; simpl; auto;
    try (destruct (login_writes_present remember [] w) as [-> ->]; auto; fail).
  unfold token_storable.
  destruct (login_writes_present remember fields w) as [Ht Hu].
  destruct (truthy (assoc "token" fields)) eqn:Htoken; simpl.
  - destruct (convertible (assoc "token" fields)); simpl.
    + rewrite Ht, Hu, andb_true_r. auto.
    + rewrite andb_false_r. auto.
  - rewrite Ht, Hu, andb_true_r. auto.
Qed.

(** C1, as the code has it: after a login attempt each of the two keys is
    set exactly when it was set before or the handler writes it: the
    token when an ok response carries a truthy [token] that converts to a
    string, the profile when it carries a truthy [user] and storing the
    token did not raise.  So token and profile stay paired (both set or
    both absent) when they were paired before the attempt and the handler
    writes both or neither. *)
Theorem login_pairs_when_response_pairs (resolves : string -> bool)
    (entries : list (string * string)) (remember : option bool)
    (net : fetch_result) (w : world) :
  present "auth_token" (localStorage (exec (login_submit resolves entries remember net) w)) =
    stores_token net || present "auth_token" (localStorage w) /\
  present "user_data" (localStorage (exec (login_submit resolves entries remember net) w)) =
    stores_user net || present "user_data" (localStorage w) /\
  (paired (localStorage w) ->
   stores_token net = stores_user net ->
   paired (localStorage (exec (login_submit resolves entries remember net) w))).
Proof.
  destruct (login_writes_keys resolves entries remember net w) as [Htoken Huser].
  split; [exact Htoken | split; [exact Huser|]].
  unfold paired. intros Hpaired Hboth.
  now rewrite Htoken, Huser, Hpaired, Hboth.
Qed.

Lemma login_pairs_when_response_pairs_witness :
  paired (localStorage
            (exec (login_submit path_only credentials None
                     (Response true
                        (Some (JObj [("token", JStr "abc"); ("user", alice);
                                     ("redirect", JStr "/dashboard")]))))
                  (fresh ∅ login_page))).
Proof.
  apply (login_pairs_when_response_pairs path_only credentials None
           (Response true
              (Some (JObj [("token", JStr "abc"); ("user", alice);
                           ("redirect", JStr "/dashboard")])))
           (fresh ∅ login_page)).
  - reflexivity.
  - reflexivity.
Defined.

(** C1 as worded fails: an ok response that carries a token and no user
    leaves [auth_token] set and [user_data] absent. *)
Lemma login_with_token_only_unpairs : ~ login_always_pairs.
Proof.
  intros Hclaim.
  specialize (Hclaim path_only credentials None
                (Response true (Some (JObj [("token", JStr "abc")])))
                (fresh ∅ login_page)).
  vm_compute in Hclaim. discriminate Hclaim.
Qed.

(** ** Logout *)

(** The store after a confirmed logout, by what the network did. *)
Lemma logout_store net w :
  localStorage (exec (logout_click true net) w) =
    match net with
    | Response _ _ =>
        delete "remember_me" (delete "user_data" (delete "auth_token" (localStorage w)))
    | NetworkError => localStorage w
    end.
Proof. destruct net; reflexivity. Qed.

Lemma logout_location net w :
  location_href (exec (logout_click true net) w) =
    match net with
    | Response _ _ => Some "/"
    | NetworkError => location_href w
    end.
Proof. destruct net; reflexivity. Qed.

(** C2, as the code has it: after the user confirms, the three keys are
    removed and the page goes to the site root whenever the logout request
    completes, whatever the response; when the request itself fails, the
    handler only logs the error, the store and the location stay as they
    were. *)
Theorem logout_cleans_when_request_completes
    (ok : bool) (body : option jsval) (w : world) :
  (Forall (fun k => localStorage (exec (logout_click true (Response ok body)) w) !! k = None)
          session_keys /\
   location_href (exec (logout_click true (Response ok body)) w) = Some "/") /\
  (localStorage (exec (logout_click true NetworkError) w) = localStorage w /\
   location_href (exec (logout_click true NetworkError) w) = location_href w /\
   console (exec (logout_click true NetworkError) w) =
     (console w ++ ["Logout error:"])%list).
Proof.
  split; [split|].
  - rewrite logout_store. unfold session_keys.
    repeat constructor.
    + rewrite lookup_delete_ne by discriminate.
      rewrite lookup_delete_ne by discriminate.
      apply lookup_delete_eq.
    + rewrite lookup_delete_ne by discriminate.
      apply lookup_delete_eq.
    + apply lookup_delete_eq.
  - now rewrite logout_location.
  - repeat split.
Qed.

(** C2 as worded fails: when the logout request does not reach the server
    the page stays where it is and the session keys stay in the store. *)
Lemma logout_network_failure_skips_cleanup : ~ logout_cleans_unconditionally.
Proof.
  intros Hclaim.
  destruct (Hclaim NetworkError (fresh signed_in login_page)) as [_ Hloc].
  vm_compute in Hloc. discriminate Hloc.
Qed.

(** C10, as the code has it: a confirmed logout whose request completes
    removes the three session keys and leaves every other key as it was;
    [remembered_username] is left unchanged by a confirmed logout whatever
    the network does. *)
Theorem logout_removes_session_keys_only
    (ok : bool) (body : option jsval) (net : fetch_result) (w : world) (key : string) :
  localStorage (exec (logout_click true (Response ok body)) w) !! key =
    (if is_session_key key then None else localStorage w !! key) /\
  localStorage (exec (logout_click true net) w) !! "remembered_username" =
    localStorage w !! "remembered_username".
Proof.
  split.
  - rewrite logout_store. unfold is_session_key, session_keys. simpl.
    destruct (String.eqb_spec key "auth_token") as [->|Htok]; simpl.
    { rewrite lookup_delete_ne by discriminate.
      rewrite lookup_delete_ne by discriminate.
      apply lookup_delete_eq. }
    destruct (String.eqb_spec key "user_data") as [->|Huser]; simpl.
    { rewrite lookup_delete_ne by discriminate. apply lookup_delete_eq. }
    destruct (String.eqb_spec key "remember_me") as [->|Hrem]; simpl.
    { apply lookup_delete_eq. }
    rewrite !lookup_delete_ne by congruence. reflexivity.
  - rewrite logout_store. destruct net; [reflexivity|].
    rewrite !lookup_delete_ne by discriminate. reflexivity.
Qed.

(** C10 as worded fails: when the logout request does not reach the
    server, a confirmed logout removes no key, [auth_token] included. *)
Lemma logout_network_failure_removes_nothing : ~ logout_removes_exactly_session_keys.
Proof.
  intros Hclaim.
  destruct (Hclaim NetworkError
              (fresh (<["auth_token" := "abc"]> (<["remembered_username" := "alice"]> ∅))
                     login_page))
    as [Hkeys _].
  apply Forall_cons in Hkeys as [Htoken _].
  vm_compute in Htoken. discriminate Htoken.
Qed.

(** ** Session bootstrap *)

Lemma bind_world_of_throw {A B} (m : js A) (e : error) (w : world) :
  (bind m (fun _ => @throw B e) w).2 = (m w).2.
Proof. unfold bind, throw. destruct (m w) as [[a|e'] w']; reflexivity. Qed.

(** A [forEach] over page elements leaves the links alone when its body
    leaves the world alone and its write-back leaves the links alone. *)
Lemma for_each_links {A} (body : A -> js A) (store : list A -> js unit) l :
  (forall x w, (body x w).2 = w) ->
  (forall xs w, auth_links (page (store xs w).2) = auth_links (page w)) ->
  forall seen w,
    auth_links (page (for_each body l store seen w).2) = auth_links (page w).
Proof.
  intros Hbody Hstore.
  induction l as [|x rest IH]; intros seen w; simpl.
  - apply Hstore.
  - specialize (Hbody x w).
    destruct (body x w) as [[y|e] w']; simpl in Hbody; subst w'.
    + apply IH.
    + rewrite bind_world_of_throw. apply Hstore.
Qed.

Lemma bind_user_field_world userData f w : (bind_user_field userData f w).2 = w.
Proof.
  unfold bind_user_field, bind.
  destruct (get_prop userData (field_name f) w) as [[v|e] w1] eqn:Hget.
  - assert (w1 = w) as ->.
    { unfold get_prop, ret, throw in Hget.
      destruct userData; inversion Hget; reflexivity. }
    unfold ret. destruct (truthy v); [|reflexivity].
    rewrite ToString_run.
    destruct (convertible v), (field_is_control f); reflexivity.
  - unfold get_prop, ret, throw in Hget.
    destruct userData; inversion Hget; reflexivity.
Qed.

Lemma bind_avatar_world userData text w : (bind_avatar userData text w).2 = w.
Proof.
  unfold bind_avatar, bind.
  destruct (get_prop userData "username" w) as [[v|e] w1] eqn:Hget.
  - assert (w1 = w) as ->.
    { unfold get_prop, ret, throw in Hget.
      destruct userData; inversion Hget; reflexivity. }
    unfold ret, throw. destruct (truthy v); [destruct v|]; reflexivity.
  - unfold get_prop, ret, throw in Hget.
    destruct userData; inversion Hget; reflexivity.
Qed.

(** Whether or not the profile binding raises, the links end in the
    logged-in arrangement. *)
Lemma updateUIForLoggedInUser_links userData w :
  auth_links (page (updateUIForLoggedInUser userData w).2) =
    map link_for_user (auth_links (page w)).
Proof.
  unfold updateUIForLoggedInUser, bind, modify. simpl.
  set (w1 := with_page (with_links (map link_for_user)) w).
  assert (H1 : auth_links (page
                 (for_each (bind_user_field userData) (user_fields (page w))
                    (fun fs w0 => (Returned (), with_page (with_user_fields fs) w0))
                    [] w1).2) = map link_for_user (auth_links (page w))).
  { rewrite for_each_links; [reflexivity | apply bind_user_field_world | reflexivity]. }
  destruct (for_each (bind_user_field userData) (user_fields (page w)) _ [] w1)
    as [[u|e] w2]; simpl in *; [|exact H1].
  rewrite for_each_links; [exact H1 | apply bind_avatar_world | reflexivity].
Qed.

Lemma checkAuthStatus_guest JSON_parse w :
  usable "auth_token" (localStorage w) && usable "user_data" (localStorage w) = false ->
  checkAuthStatus JSON_parse w =
    (Returned Guest, with_page (with_links (map link_for_guest)) w).
Proof.
  unfold checkAuthStatus, usable, getItem, bind. simpl.
  destruct (localStorage w !! "auth_token") as [token|],
           (localStorage w !! "user_data") as [text|]; simpl;
    intros Hnot; rewrite ?Hnot, ?andb_false_r; reflexivity.
Qed.

Lemma checkAuthStatus_user JSON_parse w :
  usable "auth_token" (localStorage w) && usable "user_data" (localStorage w) = true ->
  exists text,
    localStorage w !! "user_data" = Some text /\
    checkAuthStatus JSON_parse w =
      match JSON_parse text with
      | Some userData =>
          (updateUIForLoggedInUser userData ;; ret (Authenticated userData)) w
      | None => (Thrown SyntaxError, w)
      end.
Proof.
  unfold checkAuthStatus, usable, getItem, bind, parse. simpl.
  destruct (localStorage w !! "auth_token") as [token|],
           (localStorage w !! "user_data") as [text|]; simpl;
    intros Hboth; rewrite ?andb_false_r in Hboth; try discriminate Hboth.
  exists text. rewrite Hboth. split; [reflexivity|].
  destruct (JSON_parse text); reflexivity.
Qed.

(** C4, as the code has it: bootstrap puts the interface into the guest
    state exactly when [auth_token] or [user_data] is absent or empty; it
    returns from the authenticated projection only when both are set and
    non-empty, and whenever both are set and non-empty and the stored
    profile is JSON the links are put into the authenticated state. *)
Theorem bootstrap_follows_usable_session
    (JSON_parse : string -> option jsval) (w : world) :
  let r := result_of (checkAuthStatus JSON_parse) w in
  let w' := exec (checkAuthStatus JSON_parse) w in
  let both := usable "auth_token" (localStorage w) && usable "user_data" (localStorage w) in
  (r = Returned Guest <-> both = false) /\
  (r = Returned Guest ->
   auth_links (page w') = map link_for_guest (auth_links (page w))) /\
  (forall userData, r = Returned (Authenticated userData) -> both = true) /\
  (both = true ->
   forall text userData,
     localStorage w !! "user_data" = Some text ->
     JSON_parse text = Some userData ->
     r <> Returned Guest /\
     auth_links (page w') = map link_for_user (auth_links (page w))).
Proof.
  unfold result_of, exec.
  destruct (usable "auth_token" (localStorage w) && usable "user_data" (localStorage w))
    eqn:Hboth; simpl.
  - (* both usable: the authenticated branch *)
    destruct (checkAuthStatus_user JSON_parse w Hboth) as (text & Htext & ->).
    pose proof (updateUIForLoggedInUser_links) as Hlinks.
    assert (Hrun : forall u,
               ((updateUIForLoggedInUser u ;; ret (Authenticated u)) w).1 <> Returned Guest /\
               auth_links (page ((updateUIForLoggedInUser u ;; ret (Authenticated u)) w).2) =
                 map link_for_user (auth_links (page w))).
    { intros u. specialize (Hlinks u w). unfold bind, ret.
      destruct (updateUIForLoggedInUser u w) as [[[]|e] w1]; simpl in *;
        (split; [discriminate | exact Hlinks]). }
    split; [|split; [|split]].
    + split; [|discriminate].
      destruct (JSON_parse text) as [u|]; simpl; intros Hr;
        [destruct (Hrun u) as [Hne _]; contradiction | discriminate Hr].
    + destruct (JSON_parse text) as [u|]; simpl; intros Hr;
        [destruct (Hrun u) as [Hne _]; contradiction | discriminate Hr].
    + reflexivity.
    + intros _ text' userData Hstored Hparsed.
      rewrite Htext in Hstored. injection Hstored as <-.
      rewrite Hparsed. apply Hrun.
  - (* one is absent or empty: the guest branch *)
    rewrite (checkAuthStatus_guest JSON_parse w Hboth). simpl.
    split; [|split; [|split]].
    + split; reflexivity.
    + reflexivity.
    + discriminate.
    + discriminate.
Qed.

Lemma bootstrap_follows_usable_session_witness :
  auth_links (page (exec (checkAuthStatus parse_empty_object) (fresh blank_token login_page))) =
    map link_for_guest (auth_links login_page) /\
  usable "auth_token" signed_in && usable "user_data" signed_in = true /\
  auth_links (page (exec (checkAuthStatus parse_empty_object) (fresh signed_in login_page))) =
    map link_for_user (auth_links login_page).
Proof.
  destruct (bootstrap_follows_usable_session parse_empty_object (fresh blank_token login_page))
    as (_ & Hguest & _ & _).
  destruct (bootstrap_follows_usable_session parse_empty_object (fresh signed_in login_page))
    as (_ & _ & Hreturned & Hauth).
  split; [exact (Hguest eq_refl)|].
  split; [exact (Hreturned (JObj []) eq_refl)|].
  destruct (Hauth eq_refl "{}" (JObj []) eq_refl eq_refl) as [_ Hlinks].
  exact Hlinks.
Defined.

(** C4 as worded fails: with [auth_token] set to the empty string and
    [user_data] set, both keys are present and bootstrap shows the guest
    state. *)
Lemma bootstrap_empty_token_is_guest : ~ bootstrap_follows_presence.
Proof.
  intros Hclaim.
  destruct (Hclaim parse_empty_object (fresh blank_token login_page)) as [_ [Hguest _]].
  destruct (Hguest eq_refl) as [Habsent | Habsent];
    vm_compute in Habsent; discriminate Habsent.
Qed.

(** ** Inactivity *)

Lemma usable_present key st : usable key st = true -> present key st = true.
Proof. unfold usable, present. destruct (st !! key); [reflexivity | discriminate]. Qed.

Lemma truthy_getItem key w :
  getItem key w = (Returned (match localStorage w !! key with
                             | Some s => JStr s
                             | None => JNull
                             end), w) /\
  truthy (match localStorage w !! key with
          | Some s => JStr s
          | None => JNull
          end) = usable key (localStorage w).
Proof. unfold getItem, usable. destruct (localStorage w !! key); auto. Qed.

(** A page that was not armed stays so, and shows no prompt. *)
Lemma run_unarmed evs w :
  (run evs (unarmed, w)).1 = unarmed /\
  dialogs (run evs (unarmed, w)).2 = dialogs w.
Proof.
  unfold run. revert w.
  induction evs as [|ev rest IH]; intros w; simpl; [auto|].
  destruct ev as [|answer|key value|key]; simpl.
  - apply IH.
  - apply IH.
  - destruct (IH (exec (setItem key value) w)) as [Ht Hd]. auto.
  - destruct (IH (exec (removeItem key) w)) as [Ht Hd]. auto.
Qed.

Lemma boot_cases w :
  boot w = (if usable "auth_token" (localStorage w) then setupAutoLogout else unarmed, w).
Proof.
  unfold boot, init_auto_logout, bind.
  destruct (truthy_getItem "auth_token" w) as [-> ->].
  destruct (usable "auth_token" (localStorage w)); reflexivity.
Qed.

(** C8: the inactivity subsystem is armed only if [auth_token] is present
    when the script loads; a page loaded without a token never shows the
    prompt, whatever happens afterwards; and a countdown that runs out
    shows the prompt only on a store that holds a token. *)
Theorem inactivity_prompt_needs_token
    (w : world) (evs : list event) (ev : event) (s : inactivity * world) :
  ((boot w).1 <> unarmed -> present "auth_token" (localStorage w) = true) /\
  (present "auth_token" (localStorage w) = false ->
   (run evs (boot w)).1 = unarmed /\
   dialogs (run evs (boot w)).2 = dialogs w) /\
  (dialogs (step ev s).2 <> dialogs s.2 ->
   present "auth_token" (localStorage s.2) = true).
Proof.
  split; [|split].
  - rewrite boot_cases. simpl.
    destruct (usable "auth_token" (localStorage w)) eqn:Huse.
    + intros _. now apply usable_present.
    + intros Harmed. contradiction.
  - intros Habsent. rewrite boot_cases.
    destruct (usable "auth_token" (localStorage w)) eqn:Huse.
    + apply usable_present in Huse. congruence.
    + apply run_unarmed.
  - destruct s as [t w0]. simpl.
    destruct ev as [|answer|key value|key]; simpl.
    + destruct (listening t); simpl; intros Hd; contradiction.
    + destruct (timeout t) as [delay|]; simpl; [|intros Hd; contradiction].
      unfold logoutDueToInactivity, bind.
      destruct (truthy_getItem "auth_token" w0) as [-> ->].
      destruct (usable "auth_token" (localStorage w0)) eqn:Huse.
      * intros _. now apply usable_present.
      * simpl. intros Hd. contradiction.
    + intros Hd. contradiction.
    + intros Hd. contradiction.
Qed.

Lemma inactivity_prompt_needs_token_witness :
  present "auth_token" signed_in = true /\
  ((run [StorageSet "auth_token" "abc"; Activity; Elapsed false]
        (boot (fresh ∅ login_page))).1 = unarmed /\
   dialogs (run [StorageSet "auth_token" "abc"; Activity; Elapsed false]
                (boot (fresh ∅ login_page))).2 = []).
Proof.
  split.
  - destruct (inactivity_prompt_needs_token (fresh signed_in login_page) []
                (Elapsed true) (setupAutoLogout, fresh signed_in login_page))
      as (Harmed & _ & Hprompt).
    assert (Hfirst : present "auth_token" signed_in = true).
    { apply Harmed. simpl. discriminate. }
    apply Hprompt. simpl. discriminate.
  - apply (inactivity_prompt_needs_token (fresh ∅ login_page)
             [StorageSet "auth_token" "abc"; Activity; Elapsed false]
             Activity (unarmed, fresh ∅ login_page)).
    reflexivity.
Defined.

(** ** Worked scenarios *)

(** The scenario of the specification: the server accepts alice and
    answers with a token, her profile and a redirect target. *)
Example login_scenario :
  let w := exec (login_submit path_only credentials None
                   (Response true
                      (Some (JObj [("token", JStr "abc"); ("user", alice);
                                   ("redirect", JStr "/dashboard")]))))
                (fresh ∅ login_page) in
  localStorage w !! "auth_token" = Some "abc" /\
  localStorage w !! "user_data" =
    Some ("{" +:+ quote "username" +:+ ":" +:+ quote "alice" +:+ "}") /\
  location_href w = Some "/dashboard" /\
  map url (requests w) = ["/login"].
Proof. vm_compute. repeat split. Qed.

(** An empty array is truthy and its string form is empty: a login whose
    response carries such a token stores the empty string, and the next
    bootstrap shows the guest state. *)
Example empty_token_scenario :
  let w := exec (login_submit path_only credentials None
                   (Response true (Some (JObj [("token", JArr []); ("user", JObj [])]))))
                (fresh ∅ login_page) in
  localStorage w = blank_token /\
  result_of (checkAuthStatus parse_empty_object) w = Returned Guest.
Proof. split; reflexivity. Qed.

(** A token that cannot be converted to a string (an object with a
    property [toString]) makes [setItem] raise: nothing is stored, not
    even the profile, and the network message is shown. *)
Example unconvertible_token_scenario :
  let w := exec (login_submit path_only credentials (Some true)
                   (Response true
                      (Some (JObj [("token", JObj [("toString", JNull)]); ("user", alice)]))))
                (fresh ∅ login_page) in
  localStorage w = ∅ /\
  location_href w = None /\
  console w = ["Login error:"] /\
  auth_errors (page w) = ["Network error. Please try again."].
Proof. vm_compute. repeat split. Qed.

(** A redirect target that the browser does not resolve makes the
    assignment raise after the session has been stored: token and profile
    are in the store, the page stays where it is and the network message
    is shown. *)
Example unresolved_redirect_scenario :
  let w := exec (login_submit path_only credentials None
                   (Response true
                      (Some (JObj [("token", JStr "abc"); ("user", alice);
                                   ("redirect", JStr "http://")]))))
                (fresh ∅ login_page) in
  localStorage w !! "auth_token" = Some "abc" /\
  localStorage w !! "user_data" =
    Some ("{" +:+ quote "username" +:+ ":" +:+ quote "alice" +:+ "}") /\
  location_href w = None /\
  console w = ["Login error:"] /\
  auth_errors (page w) = ["Network error. Please try again."].
Proof. vm_compute. repeat split. Qed.

(** Upper-casing the initial of a name leaves the code units below 256
    for three letters: the initial of "émile" (U+00E9) is U+00C9, the one
    of a name in sharp s is SS, the one of a name in U+00FF is U+0178. *)
Example initial_scenario :
  initial "alice" = units "A" /\
  initial (String "233"%char "mile") = [201%N] /\
  initial (String "223"%char EmptyString) = units "SS" /\
  initial (String "255"%char EmptyString) = [376%N] /\
  initial "42" = units "4".
Proof. repeat split. Qed.

(** With a 30 minute countdown, activity re-arms the timer; when it runs
    out and the user declines, token and profile are removed and the page
    goes to the login page with the timeout marker. *)
Example inactivity_scenario :
  let '(t, w) := run [Activity; Elapsed false] (boot (fresh signed_in login_page)) in
  timeout t = None /\
  dialogs w = [inactivity_prompt] /\
  localStorage w !! "auth_token" = None /\
  localStorage w !! "user_data" = None /\
  localStorage w !! "remember_me" = Some "true" /\
  location_href w = Some "/login?timeout=true".
Proof. vm_compute. repeat split. Qed.

(** * Further properties of the two scripts *)

(** ** Notifications *)

(** Everything but the error notifications and the timers is left alone by
    [showAuthError], which always returns. *)
Lemma showAuthError_frame message w :
  (showAuthError message w).1 = Returned tt /\
  localStorage (showAuthError message w).2 = localStorage w /\
  location_href (showAuthError message w).2 = location_href w /\
  requests (showAuthError message w).2 = requests w /\
  dialogs (showAuthError message w).2 = dialogs w /\
  console (showAuthError message w).2 = console w /\
  auth_successes (page (showAuthError message w).2) = auth_successes (page w) /\
  auth_form (page (showAuthError message w).2) = auth_form (page w) /\
  auth_links (page (showAuthError message w).2) = auth_links (page w) /\
  timers (showAuthError message w).2 =
    (timers w ++ if auth_form (page w) then [(5000%Z, DismissError message)] else [])%list /\
  auth_errors (page (showAuthError message w).2) =
    (if auth_form (page w) then [message] else []).
Proof.
  unfold showAuthError, bind, modify, setTimeout, ret. simpl.
  destruct (auth_form (page w)) eqn:Hform; simpl; repeat split;
    auto using app_nil_r.
Qed.

Lemma showAuthSuccess_frame message w :
  (showAuthSuccess message w).1 = Returned tt /\
  localStorage (showAuthSuccess message w).2 = localStorage w /\
  location_href (showAuthSuccess message w).2 = location_href w /\
  requests (showAuthSuccess message w).2 = requests w /\
  dialogs (showAuthSuccess message w).2 = dialogs w /\
  console (showAuthSuccess message w).2 = console w /\
  timers (showAuthSuccess message w).2 = timers w /\
  auth_errors (page (showAuthSuccess message w).2) = auth_errors (page w) /\
  auth_form (page (showAuthSuccess message w).2) = auth_form (page w) /\
  auth_successes (page (showAuthSuccess message w).2) =
    if auth_form (page w) then [message] else [].
Proof.
  unfold showAuthSuccess, bind, modify, ret. simpl.
  destruct (auth_form (page w)) eqn:Hform; simpl; repeat split; auto.
Qed.

(** X1: whatever was displayed before, after two error notifications in a
    row only the second is on the page (none when the page has no
    [.auth-form]); the success notifications are not touched, and each
    displayed error has scheduled its own dismissal after 5 seconds. *)
Theorem showAuthError_replaces_previous (first second : string) (w : world) :
  let w' := exec (showAuthError first ;; showAuthError second) w in
  auth_errors (page w') = (if auth_form (page w) then [second] else []) /\
  auth_successes (page w') = auth_successes (page w) /\
  timers w' =
    (timers w ++ if auth_form (page w)
                 then [(5000%Z, DismissError first); (5000%Z, DismissError second)]
                 else [])%list.
Proof.
  unfold exec, bind.
  destruct (showAuthError_frame first w)
    as (Hret & _ & _ & _ & _ & _ & Hok & Hform & _ & Htimers & _).
  destruct (showAuthError first w) as [o w1]. simpl in *. subst o.
  destruct (showAuthError_frame second w1)
    as (_ & _ & _ & _ & _ & _ & Hok2 & _ & _ & Htimers2 & _).
  rewrite showAuthError_errors, Hok2, Htimers2, Htimers, Hform, Hok.
  destruct (auth_form (page w)); simpl; repeat split.
  - now rewrite <- app_assoc.
  - now rewrite !app_nil_r.
Qed.

(** ** Login: the remaining paths *)

(** Replaces a call of [showAuthError] by the world it leaves, with the
    facts of its frame. *)
Ltac frame_errors :=
  repeat match goal with
         | |- context [showAuthError ?m ?x] =>
             let H := fresh "Hframe" in
             let o := fresh "o" in
             let wx := fresh "wx" in
             pose proof (showAuthError_frame m x) as H;
             destruct (showAuthError m x) as [o wx];
             simpl in H;
             destruct H as (-> & ? & ? & ? & ? & ? & ? & ? & ? & ? & ?)
         end.

(** The writes of an accepted login touch the store only. *)
Lemma login_writes_frame remember fields w :
  page (login_writes remember fields w) = page w /\
  location_href (login_writes remember fields w) = location_href w /\
  requests (login_writes remember fields w) = requests w /\
  dialogs (login_writes remember fields w) = dialogs w /\
  console (login_writes remember fields w) = console w /\
  timers (login_writes remember fields w) = timers w.
Proof.
  unfold login_writes.
  destruct (truthy (assoc "token" fields)), (truthy (assoc "user" fields)),
           remember as [[|]|]; repeat split.
Qed.

(** What the writes of an accepted login leave in the store. *)
Lemma login_writes_lookup remember fields w key :
  let st' := localStorage (login_writes remember fields w) in
  (is_session_key key = false -> st' !! key = localStorage w !! key) /\
  (is_Some (localStorage w !! key) -> is_Some (st' !! key)) /\
  st' !! "remember_me" =
    (if match remember with Some true => true | _ => false end
     then Some "true"
     else localStorage w !! "remember_me") /\
  (truthy (assoc "token" fields) = true ->
   st' !! "auth_token" = Some (text_of (assoc "token" fields))) /\
  (truthy (assoc "user" fields) = true ->
   st' !! "user_data" = Some (text_of (JSON_stringify (assoc "user" fields)))).
Proof.
  assert (Hkey : forall k v (st : gmap string string),
             is_Some (st !! key) -> is_Some (<[k := v]> st !! key)).
  { intros k v st Hs. destruct (decide (k = key)) as [->|Hne].
    - rewrite lookup_insert_eq. eauto.
    - now rewrite lookup_insert_ne. }
  assert (Hset : forall k v (st : gmap string string),
             is_session_key key = false -> is_session_key k = true ->
             <[k := v]> st !! key = st !! key).
  { intros k v st Hk Hin. apply lookup_insert_ne. intros ->. congruence. }
  unfold login_writes.
  destruct (truthy (assoc "token" fields)), (truthy (assoc "user" fields)),
           remember as [[|]|]; simpl;
    (split; [|split; [|split; [|split]]]);
    try (intros Hk; rewrite ?Hset by (exact Hk || reflexivity); reflexivity);
    try (intros Hs; repeat apply Hkey; exact Hs);
    try (intros H; discriminate H);
    try (intros _);
    repeat first [ rewrite lookup_insert_eq
                 | rewrite lookup_insert_ne by discriminate ];
    reflexivity.
Qed.

(** X2: a login that the server accepts with a readable body runs to
    its end when storing the token of the response does not raise and
    its redirect target ("/home" when the response has none) converts to
    a string that the browser resolves: the handler returns without
    raising, sends the page to that target and shows no notification:
    the page, the timers and the console are as before. *)
Theorem login_success_navigates
    (resolves : string -> bool)
    (entries : list (string * string)) (remember : option bool)
    (net : fetch_result) (w : world) :
  login_completes resolves net = true ->
  result_of (login_submit resolves entries remember net) w = Returned tt /\
  location_href (exec (login_submit resolves entries remember net) w) =
    Some (redirect_target net) /\
  page (exec (login_submit resolves entries remember net) w) = page w /\
  timers (exec (login_submit resolves entries remember net) w) = timers w /\
  console (exec (login_submit resolves entries remember net) w) = console w.
Proof.
  unfold result_of, exec. intros Hdone.
  assert (Hrun : exists fields,
             login_submit resolves entries remember net w =
               (Returned tt,
                with_location (redirect_target net)
                  (login_writes remember fields (with_request (login_request entries) w)))).
  { destruct net as [|[|] [body|]]; try discriminate Hdone.
    destruct body as [| | | | | |fields]; try discriminate Hdone;
      try (exists []; simpl in Hdone;
           rewrite login_plain_run by (reflexivity || discriminate);
           rewrite Hdone; reflexivity).
    exists fields. rewrite login_object_run.
    simpl in Hdone. apply andb_true_iff in Hdone as [-> ->]. reflexivity. }
  destruct Hrun as (fields & ->). simpl.
  destruct (login_writes_frame remember fields (with_request (login_request entries) w))
    as (Hpage & _ & _ & _ & Hconsole & Htimers).
  rewrite Hpage, Hconsole, Htimers. repeat split.
Qed.

Lemma login_success_navigates_witness :
  location_href (exec (login_submit path_only credentials None
                         (Response true (Some (JObj [("token", JStr "abc")]))))
                      (fresh ∅ login_page)) = Some "/home".
Proof.
  apply (login_success_navigates path_only credentials None
           (Response true (Some (JObj [("token", JStr "abc")]))) (fresh ∅ login_page)).
  reflexivity.
Defined.

(** X3: an ok response whose body cannot be read (it is not JSON, or it
    is [null]) is handled like a network failure: the console gets the
    login error, the notification is the network one, nothing is stored
    and the page does not navigate. *)
Theorem login_unreadable_body_is_network_error (resolves : string -> bool)
    (entries : list (string * string)) (remember : option bool)
    (body : option jsval) (w : world) :
  body = None \/ body = Some JNull ->
  let w' := exec (login_submit resolves entries remember (Response true body)) w in
  localStorage w' = localStorage w /\
  location_href w' = location_href w /\
  console w' = (console w ++ ["Login error:"])%list /\
  auth_errors (page w') =
    (if auth_form (page w) then ["Network error. Please try again."] else []).
Proof.
  intros [-> | ->]; run_login; frame_errors; simpl in *; subst;
    repeat match goal with
           | H : auth_form (page _) = _ |- _ => rewrite H in *
           end;
    repeat split; congruence.
Qed.

Lemma login_unreadable_body_is_network_error_witness :
  auth_errors (page (exec (login_submit path_only credentials (Some true) (Response true (Some JNull)))
                          (fresh ∅ login_page))) =
    ["Network error. Please try again."] /\
  localStorage (exec (login_submit path_only credentials (Some true) (Response true None))
                     (fresh ∅ login_page)) = ∅.
Proof.
  split.
  - apply (login_unreadable_body_is_network_error path_only credentials (Some true) (Some JNull)
             (fresh ∅ login_page)).
    right. reflexivity.
  - apply (login_unreadable_body_is_network_error path_only credentials (Some true) None
             (fresh ∅ login_page)).
    left. reflexivity.
Defined.

(** X4: a login attempt never removes a key and never touches a key
    other than [auth_token], [user_data] and [remember_me]; it sets
    [remember_me] to "true" exactly when the login is accepted with the
    box checked and storing the token of the response did not raise, and
    leaves it as it was otherwise (an accepted login with the box
    unchecked does not clear an earlier choice). *)
Theorem login_store_frame (resolves : string -> bool)
    (entries : list (string * string)) (remember : option bool)
    (net : fetch_result) (w : world) (key : string) :
  let st' := localStorage (exec (login_submit resolves entries remember net) w) in
  (is_session_key key = false -> st' !! key = localStorage w !! key) /\
  (is_Some (localStorage w !! key) -> is_Some (st' !! key)) /\
  st' !! "remember_me" =
    (if reaches_remember net && match remember with Some true => true | _ => false end
     then Some "true"
     else localStorage w !! "remember_me").
Proof.
  simpl. rewrite login_store.
  assert (Hwritten : forall fields,
             let st' := localStorage (login_writes remember fields w) in
             (is_session_key key = false -> st' !! key = localStorage w !! key) /\
             (is_Some (localStorage w !! key) -> is_Some (st' !! key)) /\
             st' !! "remember_me" =
               (if true && match remember with Some true => true | _ => false end
                then Some "true"
                else localStorage w !! "remember_me")).
  { intros fields.
    destruct (login_writes_lookup remember fields w key) as (H1 & H2 & H3 & _).
    auto. }
  destruct net as [|[|] [body|]]; simpl; auto.
  destruct body as [| | | | | |fields]; simpl; auto; try apply Hwritten.
  destruct (token_storable fields); simpl; auto.
Qed.

Lemma login_store_frame_witness :
  localStorage (exec (login_submit path_only credentials (Some false)
                        (Response true (Some (JObj [("token", JStr "xyz")]))))
                     (fresh signed_in login_page)) !! "remembered_username" = Some "alice".
Proof.
  destruct (login_store_frame path_only credentials (Some false)
              (Response true (Some (JObj [("token", JStr "xyz")])))
              (fresh signed_in login_page) "remembered_username") as (Hframe & _ & _).
  rewrite Hframe; reflexivity.
Defined.

(** Every login attempt, whatever the network does, issues exactly
    one request, a POST to /login that carries the fields of the form,
    opens no dialog and leaves the links of the page alone. *)
Lemma login_issues_one_request (resolves : string -> bool)
    (entries : list (string * string)) (remember : option bool)
    (net : fetch_result) (w : world) :
  requests (exec (login_submit resolves entries remember net) w) =
    (requests w ++ [login_request entries])%list /\
  dialogs (exec (login_submit resolves entries remember net) w) = dialogs w /\
  auth_links (page (exec (login_submit resolves entries remember net) w)) = auth_links (page w).
Proof.
  unfold exec.
  destruct (login_accepted net) eqn:Hacc.
  - assert (Hwrites : forall fields,
               requests (login_writes remember fields
                           (with_request (login_request entries) w)) =
                 (requests w ++ [login_request entries])%list /\
               dialogs (login_writes remember fields
                          (with_request (login_request entries) w)) = dialogs w /\
               auth_links (page (login_writes remember fields
                                   (with_request (login_request entries) w))) =
                 auth_links (page w)).
    { intros fields.
      destruct (login_writes_frame remember fields
                  (with_request (login_request entries) w))
        as (-> & _ & -> & -> & _). repeat split. }
    destruct net as [|[|] [body|]]; try discriminate Hacc.
    destruct body as [| | | | | |fields]; try discriminate Hacc;
      try (rewrite login_plain_run by (reflexivity || discriminate);
           destruct (resolves "/home"); frame_errors; simpl in *;
           try apply (Hwrites []);
           destruct (Hwrites []) as (Hr & Hd & Hl);
           repeat split; congruence).
    rewrite login_object_run.
    destruct (token_storable fields);
      [destruct (redirect_assignable resolves fields)|];
      frame_errors; simpl in *;
      try apply Hwrites;
      destruct (Hwrites fields) as (Hr & Hd & Hl);
      repeat split; congruence.
  - destruct (failed_login_run resolves entries remember net w Hacc)
      as (w1 & -> & _ & _ & _ & Hlinks & Hreq & Hdia).
    frame_errors. simpl. repeat split; congruence.
Qed.

(** ** Registration: the remaining paths *)

Ltac frame_successes :=
  repeat match goal with
         | |- context [showAuthSuccess ?m ?x] =>
             let H := fresh "Hframe" in
             let o := fresh "o" in
             let wx := fresh "wx" in
             pose proof (showAuthSuccess_frame m x) as H;
             destruct (showAuthSuccess m x) as [o wx];
             simpl in H;
             destruct H as (-> & ? & ? & ? & ? & ? & ? & ? & ? & ?)
         end.

Ltac run_register :=
  unfold exec, register_submit, try_catch, bind, fetch, response_json, get_prop,
         ret, throw, modify, setTimeout, console_error;
  simpl;
  rewrite ?index_of_key_word by reflexivity;
  simpl.

Lemma registration_valid_checks password confirmPassword :
  registration_valid password confirmPassword = true ->
  negb (jstring_eqb password confirmPassword) = false /\
  Nat.ltb (List.length password) 6 = false.
Proof.
  unfold registration_valid. rewrite andb_true_iff. intros [-> Hlen].
  split; [reflexivity|].
  apply Nat.leb_le in Hlen. apply Nat.ltb_ge. exact Hlen.
Qed.

Lemma fromEntries_snoc entries name value :
  fromEntries (entries ++ [(name, value)]) = <[name := value]> (fromEntries entries).
Proof. unfold fromEntries. now rewrite foldl_app. Qed.

(** [Object.fromEntries] keeps, for each name, the value of its last
    entry. *)
Lemma fromEntries_lookup entries name :
  fromEntries entries !! name = last_value name entries.
Proof.
  unfold last_value.
  induction entries as [|[k v] entries IH] using rev_ind; [reflexivity|].
  rewrite fromEntries_snoc, rev_app_distr. simpl.
  destruct (String.eqb_spec k name) as [->|Hne].
  - now rewrite lookup_insert_eq.
  - now rewrite lookup_insert_ne.
Qed.

(** A registration that passes the checks and is not accepted is a call
    of [showAuthError], after the request and, on the [catch] path, a
    console line; the earlier error notifications may be gone already. *)
Lemma register_rejected_run password confirmPassword entries net w :
  registration_valid password confirmPassword = true ->
  register_accepted net = false ->
  exists w1,
    register_submit password confirmPassword entries net w =
      showAuthError (register_failure_message net) w1 /\
    localStorage w1 = localStorage w /\
    location_href w1 = location_href w /\
    dialogs w1 = dialogs w /\
    requests w1 = (requests w ++ [register_request entries])%list /\
    timers w1 = timers w /\
    auth_form (page w1) = auth_form (page w) /\
    auth_successes (page w1) = auth_successes (page w).
Proof.
  intros Hvalid.
  destruct (registration_valid_checks _ _ Hvalid) as [Hsame Hlong].
  unfold register_submit. rewrite Hsame, Hlong.
  pose (sent := with_request (register_request entries) w).
  pose (cleared := with_page (with_errors (fun _ => [])) sent).
  destruct net as [|[|] [body|]]; simpl; intros Hrej; try discriminate Hrej.
  - exists (with_console "Registration error:" sent). repeat split.
  - exists (with_console "Registration error:" sent). repeat split.
  - destruct body as [| | | | | |fields];
      try (exists (with_console "Registration error:" sent); repeat split; fail);
      try (exists cleared; split; [|repeat split];
           subst cleared sent; unfold register_request;
           run_register; rewrite showAuthError_of_run; simpl;
           match goal with
           | |- context [showAuthError ?m ?x] =>
               destruct (showAuthError_effect m x) as (w' & -> & _)
           end; reflexivity).
    unfold rejection_message.
    destruct (convertible (js_or (assoc "message" fields) (JStr "Registration failed")))
      eqn:Hc.
    + exists cleared. split; [|repeat split].
      run_register. fold (register_request entries). fold sent.
      rewrite showAuthError_of_run, Hc. fold cleared.
      destruct (showAuthError_effect
                  (text_of (js_or (assoc "message" fields) (JStr "Registration failed")))
                  cleared)
        as (w' & -> & _). reflexivity.
    + exists (with_console "Registration error:" cleared). split; [|repeat split].
      run_register. fold (register_request entries). fold sent.
      rewrite showAuthError_of_run, Hc. reflexivity.
  - exists (with_console "Registration error:" sent). repeat split.
Qed.

(** The success path of registration. *)
Lemma register_accepted_effect password confirmPassword entries body w :
  registration_valid password confirmPassword = true ->
  let w' := exec (register_submit password confirmPassword entries
                    (Response true (Some body))) w in
  auth_successes (page w') = (if auth_form (page w) then [registration_success] else []) /\
  timers w' = (timers w ++ [(2000%Z, GoTo "/login")])%list /\
  location_href w' = location_href w /\
  auth_errors (page w') = auth_errors (page w) /\
  console w' = console w /\
  auth_form (page w') = auth_form (page w) /\
  requests w' = (requests w ++ [register_request entries])%list /\
  localStorage w' = localStorage w /\
  dialogs w' = dialogs w.
Proof.
  intros Hvalid.
  destruct (registration_valid_checks _ _ Hvalid) as [Hsame Hlong].
  unfold exec, register_submit. rewrite Hsame, Hlong.
  run_register. frame_successes. unfold registration_success, register_request.
  simpl in *. repeat split; congruence.
Qed.

(** The failure paths of registration, after the client-side checks. *)
Lemma register_rejected_effect password confirmPassword entries net w :
  registration_valid password confirmPassword = true ->
  register_accepted net = false ->
  let w' := exec (register_submit password confirmPassword entries net) w in
  auth_errors (page w') =
    (if auth_form (page w) then [register_failure_message net] else []) /\
  auth_successes (page w') = auth_successes (page w) /\
  timers w' =
    (timers w ++ if auth_form (page w)
                 then [(5000%Z, DismissError (register_failure_message net))]
                 else [])%list /\
  auth_form (page w') = auth_form (page w) /\
  requests w' = (requests w ++ [register_request entries])%list /\
  localStorage w' = localStorage w /\
  location_href w' = location_href w /\
  dialogs w' = dialogs w.
Proof.
  intros Hvalid Hrej.
  destruct (register_rejected_run _ _ entries net w Hvalid Hrej)
    as (w1 & Hrun & Hst & Hloc & Hdia & Hreq & Htim & Hform & Hok).
  unfold exec. rewrite Hrun. frame_errors. simpl.
  rewrite Hform in *. repeat split; congruence.
Qed.

(** X5: a registration that passes the two client-side checks issues
    exactly one request, a POST to /register, whatever the network then
    does; its payload never has the [confirm_password] field and carries,
    for every other name, the value of the last form entry of that
    name. *)
Theorem register_sends_form_without_confirmation
    (password confirmPassword : jstring) (entries : list (string * string))
    (net : fetch_result) (w : world) (name : string) :
  registration_valid password confirmPassword = true ->
  requests (exec (register_submit password confirmPassword entries net) w) =
    (requests w ++ [register_request entries])%list /\
  (exists data,
     payload (register_request entries) = Some data /\
     data !! "confirm_password" = None /\
     (name <> "confirm_password" -> data !! name = last_value name entries)).
Proof.
  intros Hvalid.
  split.
  - destruct (register_accepted net) eqn:Hacc.
    + destruct net as [|[|] [body|]]; try discriminate Hacc.
      apply (register_accepted_effect _ _ entries body w Hvalid).
    + apply (register_rejected_effect _ _ entries net w Hvalid Hacc).
  - eexists. split; [reflexivity|]. split.
    + apply lookup_delete_eq.
    + intros Hne. rewrite lookup_delete_ne by congruence. apply fromEntries_lookup.
Qed.

Lemma register_sends_form_without_confirmation_witness :
  requests (exec (register_submit (units "secret1") (units "secret1")
                    [("username", "alice"); ("password", "secret1");
                     ("confirm_password", "secret1")]
                    NetworkError) (fresh ∅ login_page)) =
    [{| url := "/register"; method := "POST";
        payload := Some (<["username" := "alice"]> (<["password" := "secret1"]> ∅)) |}].
Proof.
  destruct (register_sends_form_without_confirmation (units "secret1") (units "secret1")
              [("username", "alice"); ("password", "secret1");
               ("confirm_password", "secret1")]
              NetworkError (fresh ∅ login_page) "username") as [Hreq _].
  - reflexivity.
  - rewrite Hreq. reflexivity.
Defined.

(** X6: when the checks pass and the server answers ok with a JSON body,
    the success notification replaces the earlier success notifications
    (it is displayed when the page has an [.auth-form]), the move to
    /login is scheduled 2 seconds later and nothing navigates at once;
    an error notification that was on the page stays there. *)
Theorem register_success_schedules_redirect
    (password confirmPassword : jstring) (entries : list (string * string))
    (body : jsval) (w : world) :
  registration_valid password confirmPassword = true ->
  let w' := exec (register_submit password confirmPassword entries
                    (Response true (Some body))) w in
  auth_successes (page w') = (if auth_form (page w) then [registration_success] else []) /\
  timers w' = (timers w ++ [(2000%Z, GoTo "/login")])%list /\
  location_href w' = location_href w /\
  auth_errors (page w') = auth_errors (page w) /\
  console w' = console w.
Proof.
  intros Hvalid.
  destruct (register_accepted_effect _ _ entries body w Hvalid)
    as (H1 & H2 & H3 & H4 & H5 & _).
  repeat split; assumption.
Qed.

Lemma register_success_schedules_redirect_witness :
  timers (exec (register_submit (units "secret1") (units "secret1") credentials
                  (Response true (Some JNull))) (fresh ∅ login_page)) =
    [(2000%Z, GoTo "/login")].
Proof.
  apply (register_success_schedules_redirect (units "secret1") (units "secret1")
           credentials JNull (fresh ∅ login_page)).
  reflexivity.
Defined.

(** X7: no path of the registration handler writes the store, assigns the
    location or opens a dialog, whatever the form holds and whatever the
    network does. *)
Theorem register_never_touches_session
    (password confirmPassword : jstring) (entries : list (string * string))
    (net : fetch_result) (w : world) :
  localStorage (exec (register_submit password confirmPassword entries net) w) =
    localStorage w /\
  location_href (exec (register_submit password confirmPassword entries net) w) =
    location_href w /\
  dialogs (exec (register_submit password confirmPassword entries net) w) = dialogs w.
Proof.
  destruct (registration_valid password confirmPassword) eqn:Hvalid.
  - destruct (register_accepted net) eqn:Hacc.
    + destruct net as [|[|] [body|]]; try discriminate Hacc.
      destruct (register_accepted_effect _ _ entries body w Hvalid)
        as (_ & _ & Hloc & _ & _ & _ & _ & Hst & Hdia).
      auto.
    + destruct (register_rejected_effect _ _ entries net w Hvalid Hacc)
        as (_ & _ & _ & _ & _ & Hst & Hloc & Hdia).
      auto.
  - unfold exec, register_submit. unfold registration_valid in Hvalid.
    destruct (jstring_eqb password confirmPassword); simpl in *.
    + assert (Hshort : Nat.ltb (List.length password) 6 = true).
      { apply Nat.ltb_lt. apply Nat.leb_gt. exact Hvalid. }
      rewrite Hshort. frame_errors. auto.
    + frame_errors. auto.
Qed.

(** X8: when the checks pass and the server side does not accept (the
    request fails, the response is not ok, or an ok response has a body
    that is not JSON), the error notification carries the message of the
    response converted to a string, or "Registration failed" when it has
    none, or the network message when the handler ended in its [catch]
    block (no body could be read, the body is [null], or the message
    cannot be converted); no success is shown and no move to the login
    page is scheduled. *)
Theorem register_failure_reports
    (password confirmPassword : jstring) (entries : list (string * string))
    (net : fetch_result) (w : world) :
  registration_valid password confirmPassword = true ->
  register_accepted net = false ->
  let w' := exec (register_submit password confirmPassword entries net) w in
  auth_errors (page w') =
    (if auth_form (page w) then [register_failure_message net] else []) /\
  auth_successes (page w') = auth_successes (page w) /\
  timers w' =
    (timers w ++ if auth_form (page w)
                 then [(5000%Z, DismissError (register_failure_message net))]
                 else [])%list.
Proof.
  intros Hvalid Hrej.
  destruct (register_rejected_effect _ _ entries net w Hvalid Hrej)
    as (H1 & H2 & H3 & _).
  repeat split; assumption.
Qed.

Lemma register_failure_reports_witness :
  auth_errors (page (exec (register_submit (units "secret1") (units "secret1") credentials
                             (Response false
                                (Some (JObj [("message", JStr "Username already exists")]))))
                          (fresh ∅ login_page))) =
    ["Username already exists"] /\
  auth_errors (page (exec (register_submit (units "secret1") (units "secret1") credentials
                             (Response false
                                (Some (JObj [("message",
                                              JObj [("toString", JStr "taken")])]))))
                          (fresh ∅ login_page))) =
    ["Network error. Please try again."].
Proof.
  split.
  - apply (register_failure_reports (units "secret1") (units "secret1") credentials
             (Response false (Some (JObj [("message", JStr "Username already exists")])))
             (fresh ∅ login_page)); reflexivity.
  - apply (register_failure_reports (units "secret1") (units "secret1") credentials
             (Response false
                (Some (JObj [("message", JObj [("toString", JStr "taken")])])))
             (fresh ∅ login_page)); reflexivity.
Defined.

(** ** Logout and the life of a session *)

(** A click on the logout link always asks once.  Declined, it sends
    nothing and changes nothing else.  Confirmed, it sends exactly one
    POST to /logout, without body, whatever the network then does, and
    never writes into the page: a logout that fails is only logged. *)
Lemma logout_click_asks_once (answer : bool) (net : fetch_result) (w : world) :
  let w' := exec (logout_click answer net) w in
  dialogs w' = (dialogs w ++ [logout_prompt])%list /\
  requests w' = (requests w ++ if answer then [logout_request] else [])%list /\
  page w' = page w /\
  timers w' = timers w /\
  (answer = false ->
   localStorage w' = localStorage w /\ location_href w' = location_href w /\
   console w' = console w).
Proof.
  destruct answer, net; simpl; repeat split; try discriminate;
    symmetry; apply app_nil_r.
Qed.

Lemma usable_insert_eq key value st :
  value <> EmptyString -> usable key (<[key := value]> st) = true.
Proof.
  intros Hne. unfold usable. rewrite lookup_insert_eq.
  destruct (String.eqb_spec value EmptyString); [contradiction | reflexivity].
Qed.

Lemma usable_insert_ne key k value st :
  k <> key -> usable key (<[k := value]> st) = usable key st.
Proof. intros Hne. unfold usable. now rewrite lookup_insert_ne. Qed.

(** X10: login and bootstrap compose.  After a login that the server
    accepts with a truthy token that converts to a non-empty string and
    with a profile object, the token is stored as that string and the
    profile as its JSON text, and a bootstrap whose parser reads that
    text back does not show the guest state: the links are put into the
    authenticated arrangement.  This holds whether or not the redirect
    target of the response can be assigned. *)
Theorem login_then_bootstrap_authenticates (resolves : string -> bool)
    (JSON_parse : string -> option jsval)
    (entries : list (string * string)) (remember : option bool)
    (fields profile : list (string * jsval)) (w : world) :
  truthy (assoc "token" fields) = true ->
  convertible (assoc "token" fields) = true ->
  text_of (assoc "token" fields) <> EmptyString ->
  assoc "user" fields = JObj profile ->
  (forall text, serialize (JObj profile) = Some text ->
                JSON_parse text = Some (JObj profile)) ->
  let w1 := exec (login_submit resolves entries remember (Response true (Some (JObj fields)))) w in
  localStorage w1 !! "auth_token" = Some (text_of (assoc "token" fields)) /\
  stored "user_data" (localStorage w1) = JSON_stringify (JObj profile) /\
  result_of (checkAuthStatus JSON_parse) w1 <> Returned Guest /\
  auth_links (page (exec (checkAuthStatus JSON_parse) w1)) =
    map link_for_user (auth_links (page w)).
Proof.
  intros Htoken Hconv Htext Huser Hparse w1.
  destruct (serialize (JObj profile)) as [text|] eqn:Hser; [|discriminate Hser].
  assert (Hfull : text <> EmptyString).
  { simpl in Hser. injection Hser as <-. discriminate. }
  assert (Hlinks1 : auth_links (page w1) = auth_links (page w)).
  { apply (login_issues_one_request resolves entries remember _ w). }
  assert (Hlook : localStorage w1 !! "auth_token" = Some (text_of (assoc "token" fields)) /\
                  localStorage w1 !! "user_data" = Some text).
  { subst w1. rewrite login_store. unfold token_storable. rewrite Hconv, orb_true_r.
    destruct (login_writes_lookup remember fields w "auth_token")
      as (_ & _ & _ & Htok & Husr).
    split; [exact (Htok Htoken)|].
    rewrite Husr by (rewrite Huser; reflexivity).
    rewrite Huser. unfold JSON_stringify. rewrite Hser. reflexivity. }
  destruct Hlook as [Hl1 Hl2]. clearbody w1.
  assert (Hboth : usable "auth_token" (localStorage w1) &&
                  usable "user_data" (localStorage w1) = true).
  { unfold usable. rewrite Hl1, Hl2.
    destruct (String.eqb_spec (text_of (assoc "token" fields)) EmptyString);
      [contradiction|].
    destruct (String.eqb_spec text EmptyString); [contradiction | reflexivity]. }
  split; [exact Hl1|]. split.
  { unfold stored, JSON_stringify. now rewrite Hl2, Hser. }
  destruct (checkAuthStatus_user JSON_parse w1 Hboth) as (text' & Hl2' & Hrun).
  rewrite Hl2 in Hl2'. injection Hl2' as <-.
  rewrite (Hparse text eq_refl) in Hrun.
  unfold result_of, exec. rewrite Hrun.
  pose proof (updateUIForLoggedInUser_links (JObj profile) w1) as Hlinks.
  unfold bind, ret.
  destruct (updateUIForLoggedInUser (JObj profile) w1) as [[[]|e] w2];
    simpl in *; rewrite <- Hlinks1; split; solve [discriminate | exact Hlinks].
Qed.

Lemma login_then_bootstrap_authenticates_witness :
  auth_links (page (exec (checkAuthStatus parse_empty_object)
                         (exec (login_submit path_only credentials None
                                  (accepted (JStr "abc") (JObj [])))
                               (fresh ∅ login_page)))) =
    map link_for_user (auth_links login_page).
Proof.
  apply (login_then_bootstrap_authenticates path_only parse_empty_object credentials None
           [("token", JStr "abc"); ("user", JObj [])] [] (fresh ∅ login_page)).
  - reflexivity.
  - reflexivity.
  - discriminate.
  - reflexivity.
  - intros text Htext. injection Htext as <-. reflexivity.
Defined.

(** X11: both ways out of a session end in the guest state.  After a
    confirmed logout whose request completed, and after an inactivity
    countdown that ran out without the user choosing to stay, the next
    bootstrap shows the guest arrangement, whatever was stored and
    whatever the parser does. *)
Theorem bootstrap_after_logout_is_guest
    (JSON_parse : string -> option jsval) (ok : bool) (body : option jsval)
    (t : inactivity) (w : world) :
  (let w1 := exec (logout_click true (Response ok body)) w in
   checkAuthStatus JSON_parse w1 =
     (Returned Guest, with_page (with_links (map link_for_guest)) w1)) /\
  (is_Some (timeout t) ->
   let w1 := (step (Elapsed false) (t, w)).2 in
   checkAuthStatus JSON_parse w1 =
     (Returned Guest, with_page (with_links (map link_for_guest)) w1)).
Proof.
  split.
  - intros w1. apply checkAuthStatus_guest.
    unfold usable. subst w1. rewrite logout_store.
    rewrite lookup_delete_ne by discriminate.
    rewrite lookup_delete_ne by discriminate.
    now rewrite lookup_delete_eq.
  - intros [delay Hdelay] w1. apply checkAuthStatus_guest.
    subst w1. simpl. rewrite Hdelay.
    unfold logoutDueToInactivity, bind.
    destruct (truthy_getItem "auth_token" w) as [-> ->].
    destruct (usable "auth_token" (localStorage w)) eqn:Huse; simpl.
    + unfold usable.
      rewrite lookup_delete_ne by discriminate.
      now rewrite lookup_delete_eq.
    + now rewrite Huse.
Qed.

Lemma bootstrap_after_logout_is_guest_witness :
  result_of (checkAuthStatus parse_empty_object)
            (step (Elapsed false) (setupAutoLogout, fresh signed_in login_page)).2 =
    Returned Guest.
Proof.
  destruct (bootstrap_after_logout_is_guest parse_empty_object true None
              setupAutoLogout (fresh signed_in login_page)) as [_ Hidle].
  unfold result_of. rewrite Hidle; [reflexivity|].
  simpl. eauto.
Defined.

(** ** The two projections of the interface *)

Lemma has_class_set_display c value l :
  has_class c (set_display value l) = has_class c l.
Proof. reflexivity. Qed.

(** The projections never change the class list of a link, and the
    display they leave is decided by the classes alone, the later tests
    winning. *)
Lemma link_projection_cases (l : auth_link) :
  let session := has_class "profile-link" l || has_class "logout-link" l in
  let entry := has_class "login-link" l || has_class "register-link" l in
  link_classes (link_for_user l) = link_classes l /\
  link_classes (link_for_guest l) = link_classes l /\
  link_display (link_for_user l) =
    (if session then "block" else if entry then "none" else link_display l) /\
  link_display (link_for_guest l) =
    (if session then "none" else if entry then "block" else link_display l).
Proof.
  unfold link_for_user, link_for_guest.
  destruct (has_class "login-link" l) eqn:H1; rewrite ?has_class_set_display;
    destruct (has_class "register-link" l) eqn:H2; rewrite ?has_class_set_display;
    destruct (has_class "profile-link" l) eqn:H3; rewrite ?has_class_set_display;
    destruct (has_class "logout-link" l) eqn:H4; rewrite ?has_class_set_display;
    rewrite ?H1, ?H2, ?H3, ?H4; repeat split.
Qed.

Lemma auth_link_eq (a b : auth_link) :
  link_classes a = link_classes b -> link_display a = link_display b -> a = b.
Proof. destruct a, b. simpl. congruence. Qed.

Lemma has_class_classes c a b :
  link_classes a = link_classes b -> has_class c a = has_class c b.
Proof. unfold has_class. now intros ->. Qed.

(** Each projection of a link overrides the other and itself. *)
Lemma link_projections_override l :
  link_for_guest (link_for_user l) = link_for_guest l /\
  link_for_user (link_for_guest l) = link_for_user l /\
  link_for_guest (link_for_guest l) = link_for_guest l /\
  link_for_user (link_for_user l) = link_for_user l.
Proof.
  destruct (link_projection_cases l) as (Hcu & Hcg & Hdu & Hdg).
  destruct (link_projection_cases (link_for_user l)) as (Hcu1 & Hcg1 & Hdu1 & Hdg1).
  destruct (link_projection_cases (link_for_guest l)) as (Hcu2 & Hcg2 & Hdu2 & Hdg2).
  rewrite !(has_class_classes _ (link_for_user l) l Hcu) in *.
  rewrite !(has_class_classes _ (link_for_guest l) l Hcg) in *.
  repeat split; apply auth_link_eq; try congruence.
  - rewrite Hdg1, Hdg, Hdu.
    destruct (has_class "profile-link" l || has_class "logout-link" l),
             (has_class "login-link" l || has_class "register-link" l); reflexivity.
  - rewrite Hdu2, Hdu, Hdg.
    destruct (has_class "profile-link" l || has_class "logout-link" l),
             (has_class "login-link" l || has_class "register-link" l); reflexivity.
  - rewrite Hdg2, Hdg.
    destruct (has_class "profile-link" l || has_class "logout-link" l),
             (has_class "login-link" l || has_class "register-link" l); reflexivity.
  - rewrite Hdu1, Hdu.
    destruct (has_class "profile-link" l || has_class "logout-link" l),
             (has_class "login-link" l || has_class "register-link" l); reflexivity.
Qed.

(** *** The binding loops as functions of the lists *)

Lemma get_prop_pure v key w w0 :
  get_prop v key w = ((get_prop v key w0).1, w).
Proof. destruct v; reflexivity. Qed.

Lemma bind_user_field_pure userData f w :
  bind_user_field userData f w = (field_binding userData f, w).
Proof.
  unfold field_binding, bind_user_field, bind.
  rewrite (get_prop_pure userData (field_name f) w blank_world).
  destruct (get_prop userData (field_name f) blank_world) as [[v|e] w0] eqn:Hget;
    simpl; [|reflexivity].
  destruct (truthy v); [|reflexivity].
  rewrite !ToString_run.
  destruct (convertible v), (field_is_control f); reflexivity.
Qed.

Lemma bind_avatar_pure userData text w :
  bind_avatar userData text w = (avatar_binding userData text, w).
Proof.
  unfold avatar_binding, bind_avatar, bind.
  rewrite (get_prop_pure userData "username" w blank_world).
  destruct (get_prop userData "username" blank_world) as [[v|e] w0] eqn:Hget;
    simpl; [|reflexivity].
  destruct (truthy v); [destruct v|]; reflexivity.
Qed.

Lemma for_each_sweep {A} (body : A -> js A) (f : A -> outcome A)
    (store : list A -> js unit) l :
  (forall x w, body x w = (f x, w)) ->
  forall seen w,
    for_each body l store seen w =
      match sweep f l with
      | (l', None) => store (seen ++ l')%list w
      | (l', Some e) => (store (seen ++ l')%list ;; throw e) w
      end.
Proof.
  intros Hbody.
  induction l as [|x rest IH]; intros seen w; simpl.
  - now rewrite app_nil_r.
  - rewrite Hbody. destruct (f x) as [y|e]; [|reflexivity].
    rewrite IH. destruct (sweep f rest) as [rest' [e|]];
      now rewrite <- app_assoc.
Qed.

Lemma updateUIForLoggedInUser_project userData w :
  updateUIForLoggedInUser userData w = project_user userData w.
Proof.
  unfold updateUIForLoggedInUser, project_user, bind, modify. simpl.
  rewrite (for_each_sweep _ _ _ _ (bind_user_field_pure userData)). simpl.
  destruct (sweep (field_binding userData) (user_fields (page w))) as [fs [e|]];
    simpl; [reflexivity|].
  rewrite (for_each_sweep _ _ _ _ (bind_avatar_pure userData)). simpl.
  destruct (sweep (avatar_binding userData) (avatars (page w))) as [avs [e|]];
    reflexivity.
Qed.

Lemma sweep_idempotent {A} (f : A -> outcome A) l :
  (forall x y, f x = Returned y -> f y = Returned y) ->
  sweep f (sweep f l).1 = sweep f l.
Proof.
  intros Hstable.
  induction l as [|x rest IH]; simpl; [reflexivity|].
  destruct (f x) as [y|e] eqn:Hx.
  - destruct (sweep f rest) as [rest' e'] eqn:Hrest. simpl in *.
    rewrite (Hstable x y Hx), IH. reflexivity.
  - simpl. now rewrite Hx.
Qed.


Lemma field_binding_stable userData x y :
  field_binding userData x = Returned y -> field_binding userData y = Returned y.
Proof.
  unfold field_binding, bind_user_field, bind.
  destruct (get_prop userData (field_name x) blank_world) as [[v|e] w0] eqn:Hget;
    simpl; [|discriminate].
  destruct (truthy v) eqn:Hv.
  - rewrite ToString_run.
    destruct (convertible v) eqn:Hconv; [|discriminate].
    destruct (field_is_control x) eqn:Hc;
      unfold ret; simpl; intros H; injection H as <-; simpl;
      rewrite Hget; simpl; rewrite Hv, ToString_run, Hconv; reflexivity.
  - unfold ret; simpl; intros H; injection H as <-; simpl.
    rewrite Hget; simpl; rewrite Hv; reflexivity.
Qed.

Lemma avatar_binding_stable userData x y :
  avatar_binding userData x = Returned y -> avatar_binding userData y = Returned y.
Proof.
  unfold avatar_binding, bind_avatar, bind.
  destruct (get_prop userData "username" blank_world) as [[v|e] w0] eqn:Hget;
    simpl; [|discriminate].
  destruct (truthy v) eqn:Hv; [destruct v|]; unfold ret, throw; simpl;
    intros H; try discriminate H; injection H as <-; reflexivity.
Qed.

Lemma map_link_for_user_idempotent links :
  map link_for_user (map link_for_user links) = map link_for_user links.
Proof.
  rewrite map_map. apply map_ext. intros l. apply link_projections_override.
Qed.

Lemma map_link_for_guest_idempotent links :
  map link_for_guest (map link_for_guest links) = map link_for_guest links.
Proof.
  rewrite map_map. apply map_ext. intros l. apply link_projections_override.
Qed.

Lemma project_user_idempotent userData w :
  project_user userData (project_user userData w).2 = project_user userData w.
Proof.
  unfold project_user.
  pose proof (sweep_idempotent (field_binding userData) (user_fields (page w))
                (field_binding_stable userData)) as Hf.
  pose proof (sweep_idempotent (avatar_binding userData) (avatars (page w))
                (avatar_binding_stable userData)) as Ha.
  destruct (sweep (field_binding userData) (user_fields (page w))) as [fs [e1|]];
    simpl in *.
  - rewrite Hf. unfold with_page, with_links, with_user_fields. simpl.
    now rewrite map_link_for_user_idempotent.
  - destruct (sweep (avatar_binding userData) (avatars (page w))) as [avs [e2|]];
      simpl in *; rewrite Hf, Ha;
      unfold with_page, with_links, with_user_fields, with_avatars; simpl;
      now rewrite map_link_for_user_idempotent.
Qed.

Lemma project_user_outside userData w :
  outside_projection (project_user userData w).2 = outside_projection w.
Proof.
  unfold project_user.
  destruct (sweep (field_binding userData) (user_fields (page w))) as [fs [e1|]];
    [reflexivity|].
  destruct (sweep (avatar_binding userData) (avatars (page w))) as [avs [e2|]];
    reflexivity.
Qed.

Lemma outside_projection_storage w w' :
  outside_projection w' = outside_projection w -> localStorage w' = localStorage w.
Proof. unfold outside_projection. intros H. now inversion H. Qed.

(** The three ways bootstrap can end. *)
Lemma checkAuthStatus_cases JSON_parse w :
  (usable "auth_token" (localStorage w) && usable "user_data" (localStorage w) = false /\
   checkAuthStatus JSON_parse w =
     (Returned Guest, with_page (with_links (map link_for_guest)) w)) \/
  (exists text,
     usable "auth_token" (localStorage w) && usable "user_data" (localStorage w) = true /\
     localStorage w !! "user_data" = Some text /\
     ((JSON_parse text = None /\ checkAuthStatus JSON_parse w = (Thrown SyntaxError, w)) \/
      (exists userData,
         JSON_parse text = Some userData /\
         checkAuthStatus JSON_parse w =
           (match (project_user userData w).1 with
            | Returned _ => Returned (Authenticated userData)
            | Thrown e => Thrown e
            end, (project_user userData w).2)))).
Proof.
  destruct (usable "auth_token" (localStorage w) && usable "user_data" (localStorage w))
    eqn:Hboth.
  - right. destruct (checkAuthStatus_user JSON_parse w Hboth) as (text & Htext & Hrun).
    exists text. split; [reflexivity|]. split; [exact Htext|].
    destruct (JSON_parse text) as [userData|]; [right|left; auto].
    exists userData. split; [reflexivity|].
    rewrite Hrun. unfold bind, ret. rewrite updateUIForLoggedInUser_project.
    destruct (project_user userData w) as [[[]|e] w1]; reflexivity.
  - left. split; [reflexivity|]. now apply checkAuthStatus_guest.
Qed.

(** X12: bootstrap is a projection of the store.  It changes nothing but
    the links, the bound fields and the avatars (the store, the location,
    the notifications, the requests, the dialogs, the console and the
    timers are as before), and running it again on the world it left
    gives the same result and the same world. *)
Theorem bootstrap_is_idempotent_projection
    (JSON_parse : string -> option jsval) (w : world) :
  outside_projection (exec (checkAuthStatus JSON_parse) w) = outside_projection w /\
  checkAuthStatus JSON_parse (exec (checkAuthStatus JSON_parse) w) =
    checkAuthStatus JSON_parse w.
Proof.
  unfold exec.
  destruct (checkAuthStatus_cases JSON_parse w)
    as [[Hboth Hrun] | (text & Hboth & Htext & [[Hparse Hrun] | (u & Hparse & Hrun)])].
  - rewrite Hrun. simpl. split; [reflexivity|].
    rewrite checkAuthStatus_guest by exact Hboth.
    unfold with_page, with_links. simpl.
    now rewrite map_link_for_guest_idempotent.
  - rewrite Hrun. simpl. split; [reflexivity | exact Hrun].
  - rewrite Hrun. simpl. split; [apply project_user_outside|].
    pose proof (project_user_outside u w) as Hout.
    apply outside_projection_storage in Hout.
    destruct (checkAuthStatus_cases JSON_parse (project_user u w).2)
      as [[Hboth' _] | (text' & _ & Htext' & [[Hparse' _] | (u' & Hparse' & Hrun')])].
    + rewrite Hout in Hboth'. congruence.
    + rewrite Hout in Htext'. congruence.
    + rewrite Hout in Htext'.
      assert (u' = u) as -> by congruence.
      rewrite Hrun', project_user_idempotent. reflexivity.
Qed.

(** X13: when both keys are set and non-empty but the stored profile is
    not JSON, bootstrap raises a SyntaxError before it touches the page:
    the world is exactly as before, with neither the guest nor the
    authenticated arrangement applied. *)
Theorem bootstrap_unreadable_profile_raises
    (JSON_parse : string -> option jsval) (w : world) (text : string) :
  usable "auth_token" (localStorage w) = true ->
  localStorage w !! "user_data" = Some text ->
  text <> EmptyString ->
  JSON_parse text = None ->
  checkAuthStatus JSON_parse w = (Thrown SyntaxError, w).
Proof.
  intros Htoken Htext Hne Hparse.
  assert (Hboth : usable "auth_token" (localStorage w) &&
                  usable "user_data" (localStorage w) = true).
  { rewrite Htoken. unfold usable. rewrite Htext.
    destruct (String.eqb_spec text EmptyString); [contradiction | reflexivity]. }
  destruct (checkAuthStatus_user JSON_parse w Hboth) as (text' & Htext' & ->).
  rewrite Htext in Htext'. injection Htext' as <-.
  now rewrite Hparse.
Qed.

Lemma bootstrap_unreadable_profile_raises_witness :
  checkAuthStatus parse_empty_object
    (fresh (<["auth_token" := "abc"]> (<["user_data" := "{oops"]> ∅)) login_page) =
  (Thrown SyntaxError,
   fresh (<["auth_token" := "abc"]> (<["user_data" := "{oops"]> ∅)) login_page).
Proof.
  apply (bootstrap_unreadable_profile_raises parse_empty_object
           (fresh (<["auth_token" := "abc"]> (<["user_data" := "{oops"]> ∅)) login_page)
           "{oops").
  - reflexivity.
  - reflexivity.
  - discriminate.
  - reflexivity.
Defined.


(** A loop that fails reports the error of one of its steps. *)
Lemma sweep_error {A} (f : A -> outcome A) l l' e :
  sweep f l = (l', Some e) -> exists x, In x l /\ f x = Thrown e.
Proof.
  revert l'. induction l as [|x rest IH]; intros l'; simpl; [discriminate|].
  destruct (f x) as [y|e0] eqn:Hx.
  - destruct (sweep f rest) as [rest' [e1|]]; intros H; inversion H; subst.
    destruct (IH rest' eq_refl) as (z & Hin & Hz). eauto.
  - intros H. inversion H; subst. eauto.
Qed.




(** X15: a profile whose [username] is truthy and not a string (a number,
    say) makes the logged-in projection raise on a page that has an
    avatar, with the links already in the authenticated arrangement;
    whatever follows the call does not run.  On a page without
    [data-user-field] elements the error is the TypeError of the call of
    [charAt]. *)
Theorem profile_with_non_string_username_raises
    (fields : list (string * jsval)) (w : world) :
  truthy (assoc "username" fields) = true ->
  (forall name, assoc "username" fields <> JStr name) ->
  avatars (page w) <> [] ->
  let w' := exec (updateUIForLoggedInUser (JObj fields)) w in
  (exists e, result_of (updateUIForLoggedInUser (JObj fields)) w = Thrown e) /\
  auth_links (page w') = map link_for_user (auth_links (page w)) /\
  (user_fields (page w) = [] ->
   result_of (updateUIForLoggedInUser (JObj fields)) w = Thrown TypeError).
Proof.
  intros Htruthy Hnot Hsome. unfold exec, result_of.
  rewrite updateUIForLoggedInUser_project. unfold project_user.
  assert (Hav : forall text rest,
             sweep (avatar_binding (JObj fields)) (text :: rest) =
               (text :: rest, Some TypeError)).
  { intros text rest.
    assert (Hfirst : avatar_binding (JObj fields) text = Thrown TypeError).
    { unfold avatar_binding, bind_avatar, bind, get_prop, ret, throw. simpl.
      rewrite Htruthy.
      destruct (assoc "username" fields) as [| | | |name| |]; try reflexivity.
      now destruct (Hnot name). }
    simpl. now rewrite Hfirst. }
  destruct (avatars (page w)) as [|text rest] eqn:Havatars; [contradiction|].
  split; [|split].
  - destruct (sweep (field_binding (JObj fields)) (user_fields (page w)))
      as [fs [e|]]; [eauto|].
    rewrite Hav. eauto.
  - destruct (sweep (field_binding (JObj fields)) (user_fields (page w)))
      as [fs [e|]]; [reflexivity|].
    rewrite Hav. reflexivity.
  - intros Hnone. rewrite Hnone, Hav. reflexivity.
Qed.

Lemma profile_with_non_string_username_raises_witness :
  result_of (updateUIForLoggedInUser (JObj [("username", JNum "7")]))
            (fresh ∅ avatar_page) = Thrown TypeError.
Proof.
  destruct (profile_with_non_string_username_raises [("username", JNum "7")]
              (fresh ∅ avatar_page)) as (_ & _ & Hkind).
  - reflexivity.
  - discriminate.
  - discriminate.
  - apply Hkind. reflexivity.
Defined.

(** ** Inactivity: the remaining behaviour *)

(** X16: at the end of a countdown on a store that holds a token, the
    user is asked once.  Staying restarts the 30 minute countdown and
    changes nothing else.  Declining removes [auth_token] and [user_data]
    and no other key ([remember_me] stays, unlike after a logout), sends
    nothing to the server, leaves no countdown pending and goes to
    /login?timeout=true. *)
Theorem countdown_end_asks_to_stay
    (t : inactivity) (w : world) (answer : bool) (key : string) :
  is_Some (timeout t) ->
  usable "auth_token" (localStorage w) = true ->
  let t' := (step (Elapsed answer) (t, w)).1 in
  let w' := (step (Elapsed answer) (t, w)).2 in
  dialogs w' = (dialogs w ++ [inactivity_prompt])%list /\
  requests w' = requests w /\
  listening t' = listening t /\
  timeout t' = (if answer then Some 1800000%Z else None) /\
  location_href w' = (if answer then location_href w else Some "/login?timeout=true") /\
  localStorage w' !! key =
    (if answer then localStorage w !! key
     else if String.eqb key "auth_token" || String.eqb key "user_data" then None
          else localStorage w !! key).
Proof.
  intros [delay Hdelay] Huse. simpl. rewrite Hdelay.
  unfold logoutDueToInactivity, bind.
  destruct (truthy_getItem "auth_token" w) as [-> ->]. rewrite Huse.
  destruct answer; simpl; repeat split.
  destruct (String.eqb_spec key "auth_token") as [->|Htok]; simpl.
  { rewrite lookup_delete_ne by discriminate. apply lookup_delete_eq. }
  destruct (String.eqb_spec key "user_data") as [->|Huser]; simpl.
  { apply lookup_delete_eq. }
  rewrite !lookup_delete_ne by congruence. reflexivity.
Qed.

Lemma countdown_end_asks_to_stay_witness :
  localStorage (step (Elapsed false) (setupAutoLogout, fresh signed_in login_page)).2
    !! "remember_me" = Some "true" /\
  timeout (step (Elapsed true) (setupAutoLogout, fresh signed_in login_page)).1 =
    Some 1800000%Z.
Proof.
  split.
  - destruct (countdown_end_asks_to_stay setupAutoLogout (fresh signed_in login_page)
                false "remember_me") as (_ & _ & _ & _ & _ & Hkey).
    + simpl. eauto.
    + reflexivity.
    + rewrite Hkey. reflexivity.
  - apply (countdown_end_asks_to_stay setupAutoLogout (fresh signed_in login_page)
             true "remember_me").
    + simpl. eauto.
    + reflexivity.
Defined.

(** Activity on a page whose listeners are registered leaves one full
    countdown pending, whatever was pending before. *)
Lemma activity_run_listening (t : inactivity) (w : world) (n : nat) :
  listening t = true ->
  run (repeat Activity (S n)) (t, w) = (resetTimer t, w).
Proof.
  intros Hl. unfold run. simpl. rewrite Hl.
  induction n as [|n IH]; simpl; [reflexivity|]. rewrite Hl. exact IH.
Qed.

(** X17: activity only restarts the countdown.  On a page whose listeners
    are registered, after any burst of activity the pending countdown is a
    full one, of 1800000 ms (30 minutes), whatever was pending before: a
    countdown that had almost run out starts again; the listeners stay
    registered and the world is as it was.  On a page that was not armed,
    activity does nothing at all. *)
Theorem activity_restarts_countdown (t : inactivity) (w : world) (n : nat) :
  (listening t = true ->
   timeout (run (repeat Activity (S n)) (t, w)).1 = Some 1800000%Z /\
   listening (run (repeat Activity (S n)) (t, w)).1 = true /\
   (run (repeat Activity (S n)) (t, w)).2 = w) /\
  (listening t = false ->
   run (repeat Activity (S n)) (t, w) = (t, w)).
Proof.
  split.
  - intros Hl. rewrite (activity_run_listening t w n Hl). simpl. auto.
  - intros Hl. unfold run. simpl. rewrite Hl.
    induction n as [|n IH]; simpl; [reflexivity|]. rewrite Hl. exact IH.
Qed.

Lemma activity_restarts_countdown_witness :
  timeout (run [Activity; Activity; Activity]
               ({| listening := true; timeout := None |}, fresh signed_in login_page)).1 =
    Some 1800000%Z /\
  run [Activity; Activity] (unarmed, fresh ∅ login_page) = (unarmed, fresh ∅ login_page).
Proof.
  destruct (activity_restarts_countdown {| listening := true; timeout := None |}
              (fresh signed_in login_page) 2) as [Harmed _].
  destruct (activity_restarts_countdown unarmed (fresh ∅ login_page) 1) as [_ Hidle].
  split.
  - apply Harmed. reflexivity.
  - apply Hidle. reflexivity.
Defined.

(** A store without a usable token is not changed by activity or by a
    countdown running out, and no prompt is shown. *)
Lemma quiet_run_without_token evs t w :
  usable "auth_token" (localStorage w) = false ->
  forallb quiet evs = true ->
  (run evs (t, w)).2 = w.
Proof.
  unfold run. revert t.
  induction evs as [|ev rest IH]; intros t Huse Hquiet; simpl; [reflexivity|].
  simpl in Hquiet. apply andb_true_iff in Hquiet as [Hev Hrest].
  destruct ev as [|answer|key value|key]; try discriminate Hev.
  - destruct (listening t); now apply IH.
  - destruct (timeout t); [|now apply IH].
    unfold logoutDueToInactivity, bind.
    destruct (truthy_getItem "auth_token" w) as [-> ->]. rewrite Huse.
    now apply IH.
Qed.

(** X18: once a countdown has run out and the user has not chosen to
    stay, the page is quiet: no later activity and no later countdown
    shows a prompt or changes the world, until something stores a token
    again. *)
Theorem no_prompt_after_idle_logout
    (t : inactivity) (w : world) (evs : list event) :
  is_Some (timeout t) ->
  forallb quiet evs = true ->
  (run evs (step (Elapsed false) (t, w))).2 = (step (Elapsed false) (t, w)).2.
Proof.
  intros [delay Hdelay] Hquiet.
  destruct (step (Elapsed false) (t, w)) as [t1 w1] eqn:Hstep.
  simpl. apply quiet_run_without_token; [|exact Hquiet].
  simpl in Hstep. rewrite Hdelay in Hstep.
  unfold logoutDueToInactivity, bind in Hstep.
  destruct (truthy_getItem "auth_token" w) as [Hget Htruthy].
  rewrite Hget, Htruthy in Hstep.
  destruct (usable "auth_token" (localStorage w)) eqn:Huse; simpl in Hstep;
    injection Hstep as <- <-; simpl.
  - unfold usable. rewrite lookup_delete_ne by discriminate.
    now rewrite lookup_delete_eq.
  - exact Huse.
Qed.

Lemma no_prompt_after_idle_logout_witness :
  dialogs (run [Activity; Elapsed true; Activity; Elapsed false]
               (step (Elapsed false) (setupAutoLogout, fresh signed_in login_page))).2 =
    [inactivity_prompt].
Proof.
  rewrite (no_prompt_after_idle_logout setupAutoLogout (fresh signed_in login_page)
             [Activity; Elapsed true; Activity; Elapsed false]).
  - reflexivity.
  - simpl. eauto.
  - reflexivity.
Defined.

(** ** Remember me *)

Ltac run_remember :=
  unfold exec, result_of, setupRememberMe, remember_change, bind, getItem, setItem,
         removeItem, modify, ret;
  simpl.

(** X19: the remembered choice survives a reload.  After the box is
    checked with a non-empty username in the field, the next page load
    checks the box and fills the username field with that name, whatever
    the two held before, and writes nothing. *)
Theorem remember_round_trip
    (name : string) (f : login_fields) (box : bool) (typed : string) (w : world) :
  name <> EmptyString ->
  remember_checkbox f = Some box ->
  username_input f = Some typed ->
  let w1 := exec (remember_change true (Some name)) w in
  setupRememberMe f w1 =
    (Returned {| remember_checkbox := Some true; username_input := Some name |}, w1).
Proof.
  intros Hname Hbox Htyped. run_remember.
  destruct (String.eqb_spec name EmptyString) as [->|_]; [contradiction|]. simpl.
  rewrite Hbox, Htyped. rewrite lookup_insert_eq. simpl.
  rewrite lookup_insert_ne by discriminate. rewrite lookup_insert_eq. simpl.
  destruct (String.eqb_spec name EmptyString) as [->|_]; [contradiction|]. simpl.
  reflexivity.
Qed.

Lemma remember_round_trip_witness :
  result_of (setupRememberMe login_fields_blank)
            (exec (remember_change true (Some "alice")) (fresh ∅ login_page)) =
    Returned {| remember_checkbox := Some true; username_input := Some "alice" |}.
Proof.
  unfold result_of.
  rewrite (remember_round_trip "alice" login_fields_blank false EmptyString
             (fresh ∅ login_page)).
  - reflexivity.
  - discriminate.
  - reflexivity.
  - reflexivity.
Defined.

(** Unchecking the box forgets the choice.  Both [remember_me] and
    [remembered_username] are removed, no other key is touched, and the
    next page load leaves the form as it finds it. *)
Lemma remember_uncheck_forgets
    (username : option string) (f : login_fields) (w : world) (key : string) :
  let w1 := exec (remember_change false username) w in
  localStorage w1 !! "remember_me" = None /\
  localStorage w1 !! "remembered_username" = None /\
  (key <> "remember_me" -> key <> "remembered_username" ->
   localStorage w1 !! key = localStorage w !! key) /\
  setupRememberMe f w1 = (Returned f, w1).
Proof.
  run_remember. repeat split.
  - apply lookup_delete_eq.
  - rewrite lookup_delete_ne by discriminate. apply lookup_delete_eq.
  - intros H1 H2. rewrite !lookup_delete_ne by congruence. reflexivity.
  - rewrite lookup_delete_eq. simpl. destruct (remember_checkbox f); reflexivity.
Qed.

(** X20: checking the box while the username field is empty (or absent)
    stores the choice and not the name: [remember_me] becomes "true" and
    [remembered_username] keeps whatever it held, so the next page load
    checks the box and fills in the earlier name if there was one. *)
Theorem remember_without_name_keeps_old_name
    (username : option string) (w : world) :
  username = None \/ username = Some EmptyString ->
  let w1 := exec (remember_change true username) w in
  localStorage w1 !! "remember_me" = Some "true" /\
  localStorage w1 !! "remembered_username" = localStorage w !! "remembered_username".
Proof.
  intros [-> | ->]; run_remember; split;
    solve [ apply lookup_insert_eq | now rewrite lookup_insert_ne by discriminate ].
Qed.

Lemma remember_without_name_keeps_old_name_witness :
  result_of (setupRememberMe login_fields_blank)
            (exec (remember_change true (Some EmptyString))
                  (fresh (<["remembered_username" := "bob"]> ∅) login_page)) =
    Returned {| remember_checkbox := Some true; username_input := Some "bob" |} /\
  localStorage (exec (remember_change true None)
                     (fresh (<["remembered_username" := "bob"]> ∅) login_page))
    !! "remembered_username" = Some "bob".
Proof.
  split; [reflexivity|].
  destruct (remember_without_name_keeps_old_name None
              (fresh (<["remembered_username" := "bob"]> ∅) login_page)) as [_ Hold].
  - left. reflexivity.
  - rewrite Hold. reflexivity.
Defined.

(** X21: a logout forgets the choice and keeps the name.  After a
    confirmed logout whose request completed, [remembered_username] is
    still in the store, and the next page load neither checks the box nor
    fills the username field. *)
Theorem logout_disables_prefill
    (ok : bool) (body : option jsval) (f : login_fields) (w : world) :
  let w1 := exec (logout_click true (Response ok body)) w in
  localStorage w1 !! "remembered_username" = localStorage w !! "remembered_username" /\
  setupRememberMe f w1 = (Returned f, w1).
Proof.
  intros w1. split.
  - subst w1. rewrite logout_store. rewrite !lookup_delete_ne by discriminate.
    reflexivity.
  - assert (Hgone : localStorage w1 !! "remember_me" = None).
    { subst w1. rewrite logout_store. apply lookup_delete_eq. }
    clearbody w1.
    unfold setupRememberMe, bind, getItem, ret. simpl. rewrite Hgone. simpl.
    destruct (remember_checkbox f); reflexivity.
Qed.

(** X22: a login with the box checked stores the choice, not the name.
    When the store holds no [remembered_username], after an accepted
    login with the box checked, in which storing the token of the
    response did not raise, the next page load checks the box and leaves
    the username field as it is. *)
Theorem login_remembers_choice_only (resolves : string -> bool)
    (entries : list (string * string)) (net : fetch_result)
    (f : login_fields) (box : bool) (w : world) :
  reaches_remember net = true ->
  localStorage w !! "remembered_username" = None ->
  remember_checkbox f = Some box ->
  let w1 := exec (login_submit resolves entries (Some true) net) w in
  setupRememberMe f w1 =
    (Returned {| remember_checkbox := Some true; username_input := username_input f |}, w1).
Proof.
  intros Hacc Hnone Hbox w1.
  assert (Hflag : localStorage w1 !! "remember_me" = Some "true" /\
                  localStorage w1 !! "remembered_username" = None).
  { assert (Hwritten : forall fields,
               localStorage (login_writes (Some true) fields w) !! "remember_me" =
                 Some "true" /\
               localStorage (login_writes (Some true) fields w) !! "remembered_username" =
                 None).
    { intros fields.
      destruct (login_writes_lookup (Some true) fields w "remembered_username")
        as (Hframe & _ & Hremember & _).
      rewrite Hremember, Hframe by reflexivity. auto. }
    subst w1. rewrite login_store.
    destruct net as [|[|] [body|]]; try discriminate Hacc.
    destruct body as [| | | | | |fields]; simpl in Hacc; try discriminate Hacc;
      simpl; rewrite ?Hacc; first [apply Hwritten | apply (Hwritten [])]. }
  destruct Hflag as [Hflag Hname]. clearbody w1.
  unfold setupRememberMe, bind, getItem, ret. simpl.
  rewrite Hflag, Hbox. simpl. rewrite Hname. simpl.
  destruct (username_input f); reflexivity.
Qed.

Lemma login_remembers_choice_only_witness :
  result_of (setupRememberMe login_fields_blank)
            (exec (login_submit path_only credentials (Some true) (accepted (JStr "abc") alice))
                  (fresh ∅ login_page)) =
    Returned {| remember_checkbox := Some true; username_input := Some EmptyString |}.
Proof.
  unfold result_of.
  rewrite (login_remembers_choice_only path_only credentials (accepted (JStr "abc") alice)
             login_fields_blank false (fresh ∅ login_page)); reflexivity.
Defined.

(** ** Password visibility toggles *)

Lemma class_add_has c classes : existsb (String.eqb c) (class_add c classes) = true.
Proof.
  unfold class_add. destruct (existsb (String.eqb c) classes) eqn:H; [exact H|].
  rewrite existsb_app. simpl. rewrite String.eqb_refl. apply orb_true_r.
Qed.

Lemma class_add_other c d classes :
  c <> d -> existsb (String.eqb d) (class_add c classes) = existsb (String.eqb d) classes.
Proof.
  intros Hne. unfold class_add. destruct (existsb (String.eqb c) classes); [reflexivity|].
  rewrite existsb_app. simpl.
  destruct (String.eqb_spec d c); [congruence|]. now rewrite !orb_false_r.
Qed.

Lemma class_remove_has c d classes :
  existsb (String.eqb d) (class_remove c classes) =
    negb (String.eqb d c) && existsb (String.eqb d) classes.
Proof.
  unfold class_remove. induction classes as [|x rest IH]; simpl.
  - now rewrite andb_false_r.
  - destruct (String.eqb_spec x c) as [->|Hxc]; simpl.
    + rewrite IH. rewrite (String.eqb_sym d c).
      destruct (String.eqb c d); reflexivity.
    + rewrite IH. destruct (String.eqb_spec d x) as [->|Hdx]; simpl; [|reflexivity].
      destruct (String.eqb_spec x c); [contradiction | reflexivity].
Qed.

(** X23: a click on a toggle whose neighbour is a password input shows
    the password: the input becomes a text input, the label becomes
    "Hide password" and the icon carries [fa-eye-slash] and no longer
    [fa-eye]; a second click restores the password input, the label
    "Show password" and the [fa-eye] icon.  Every other class of the icon
    is kept by both clicks. *)
Theorem toggle_click_shows_then_hides (b : toggle_button) (classes : list string) (c : string) :
  sibling_type b = Some "password" ->
  icon_classes b = Some classes ->
  let once := (toggle_click b).2 in
  let twice := (toggle_click once).2 in
  (toggle_click b).1 = Returned tt /\ (toggle_click once).1 = Returned tt /\
  sibling_type once = Some "text" /\ aria_label once = Some "Hide password" /\
  sibling_type twice = Some "password" /\ aria_label twice = Some "Show password" /\
  (exists shown hidden,
     icon_classes once = Some shown /\ icon_classes twice = Some hidden /\
     existsb (String.eqb "fa-eye-slash") shown = true /\
     existsb (String.eqb "fa-eye") shown = false /\
     existsb (String.eqb "fa-eye") hidden = true /\
     existsb (String.eqb "fa-eye-slash") hidden = false /\
     (c <> "fa-eye" -> c <> "fa-eye-slash" ->
      existsb (String.eqb c) shown = existsb (String.eqb c) classes /\
      existsb (String.eqb c) hidden = existsb (String.eqb c) classes)).
Proof.
  intros Htype Hicon once twice.
  set (shown := class_add "fa-eye-slash" (class_remove "fa-eye" classes)).
  set (hidden := class_add "fa-eye" (class_remove "fa-eye-slash" shown)).
  assert (H1 : toggle_click b =
               (Returned tt, {| sibling_type := Some "text"; icon_classes := Some shown;
                                aria_label := Some "Hide password" |})).
  { unfold toggle_click. rewrite Htype. cbn [sibling_type icon_classes aria_label].
    rewrite Hicon. reflexivity. }
  assert (H2 : toggle_click once =
               (Returned tt, {| sibling_type := Some "password"; icon_classes := Some hidden;
                                aria_label := Some "Show password" |})).
  { subst once. rewrite H1. reflexivity. }
  subst twice. rewrite H2. subst once. rewrite H1. cbn [fst snd sibling_type aria_label icon_classes].
  do 6 (split; [reflexivity|]).
  exists shown, hidden. do 2 (split; [reflexivity|]).
  assert (Hs1 : existsb (String.eqb "fa-eye-slash") shown = true)
    by apply class_add_has.
  assert (Hs2 : existsb (String.eqb "fa-eye") shown = false).
  { subst shown. rewrite class_add_other by discriminate.
    rewrite class_remove_has. reflexivity. }
  assert (Hh1 : existsb (String.eqb "fa-eye") hidden = true)
    by apply class_add_has.
  assert (Hh2 : existsb (String.eqb "fa-eye-slash") hidden = false).
  { subst hidden. rewrite class_add_other by discriminate.
    rewrite class_remove_has. reflexivity. }
  do 4 (split; [assumption|]).
  intros Heye Hslash.
  assert (Hkeep : existsb (String.eqb c) shown = existsb (String.eqb c) classes).
  { subst shown. rewrite class_add_other by congruence. rewrite class_remove_has.
    destruct (String.eqb_spec c "fa-eye"); [contradiction | reflexivity]. }
  split; [exact Hkeep|].
  subst hidden. rewrite class_add_other by congruence. rewrite class_remove_has.
  destruct (String.eqb_spec c "fa-eye-slash"); [contradiction | exact Hkeep].
Qed.

Lemma toggle_click_shows_then_hides_witness :
  sibling_type (toggle_click (toggle_click eye_toggle).2).2 = Some "password" /\
  icon_classes (toggle_click (toggle_click eye_toggle).2).2 = Some ["fas"; "fa-eye"].
Proof.
  destruct (toggle_click_shows_then_hides eye_toggle ["fas"; "fa-eye"] "fas"
              eq_refl eq_refl) as (_ & _ & _ & _ & Htype & _).
  split; [exact Htype | reflexivity].
Defined.

(** X24: the edges of the toggle.  A button without a previous sibling
    raises and changes nothing; a neighbour of any type other than
    password is turned into a password input by the click; a button
    without icon raises after the type of the input has been changed. *)
Theorem toggle_click_edges (b : toggle_button) (ty : string) :
  (sibling_type b = None -> toggle_click b = (Thrown TypeError, b)) /\
  (sibling_type b = Some ty -> ty <> "password" ->
   sibling_type (toggle_click b).2 = Some "password") /\
  (sibling_type b = Some ty -> icon_classes b = None ->
   (toggle_click b).1 = Thrown TypeError /\
   sibling_type (toggle_click b).2 =
     Some (if String.eqb ty "password" then "text" else "password")).
Proof.
  unfold toggle_click. split; [|split].
  - intros Hnone. rewrite Hnone. reflexivity.
  - intros Hty Hne. rewrite Hty.
    destruct (String.eqb_spec ty "password"); [contradiction|].
    cbn [sibling_type icon_classes aria_label].
    destruct (icon_classes b); reflexivity.
  - intros Hty Hicon. rewrite Hty.
    cbn [sibling_type icon_classes aria_label]. rewrite Hicon.
    split; reflexivity.
Qed.

Lemma toggle_click_edges_witness :
  sibling_type (toggle_click {| sibling_type := Some "email"; icon_classes := None;
                                aria_label := None |}).2 = Some "password".
Proof.
  destruct (toggle_click_edges {| sibling_type := Some "email"; icon_classes := None;
                                  aria_label := None |} "email") as (_ & Hother & _).
  apply Hother; [reflexivity | discriminate].
Defined.

(** ** The strength indicator *)

(** X25: the indicator follows the checker.  The text shown is the
    feedback of the checker; the bar is green exactly from score 4 up and
    the text likewise; bar and text have the same colour except at score
    2, where the bar is red and the text yellow; an element that the page
    does not have is not created. *)
Theorem strength_indicator_colours
    (percent : Z -> Z -> string) (password : jstring)
    (bar : strength_bar) (text : strength_text) :
  let s := score (checkPasswordStrength password) in
  exists bar' text',
    updatePasswordStrength percent password (Some bar) (Some text) =
      (Some bar', Some text') /\
    updatePasswordStrength percent password None None = (None, None) /\
    bar_width bar' = percent s 5%Z /\
    text_content text' = feedback (checkPasswordStrength password) /\
    (bar_color bar' = "#4dff4d" <-> (4 <= s)%Z) /\
    (text_color text' = "#4dff4d" <-> (4 <= s)%Z) /\
    (bar_color bar' = text_color text' <-> s <> 2%Z) /\
    (s = 2%Z -> bar_color bar' = "#ff4d4d" /\ text_color text' = "#ffd24d").
Proof.
  unfold updatePasswordStrength, checkPasswordStrength.
  destruct (Nat.leb 8 (List.length password)),
           (regex_test is_lower password),
           (regex_test is_upper password),
           (regex_test is_digit password),
           (regex_test is_special password); simpl;
    eexists _, _; (split; [reflexivity|]); (split; [reflexivity|]); simpl;
    repeat split; intros; try lia; try discriminate; try reflexivity; congruence.
Qed.

Lemma strength_indicator_colours_witness :
  exists bar' text',
    updatePasswordStrength whole_percent (units "ab1")
      (Some {| bar_width := "0%"; bar_color := EmptyString |})
      (Some {| text_content := EmptyString; text_color := EmptyString |}) =
      (Some bar', Some text') /\
    bar_color bar' = "#ff4d4d" /\ text_color text' = "#ffd24d".
Proof.
  destruct (strength_indicator_colours whole_percent (units "ab1")
              {| bar_width := "0%"; bar_color := EmptyString |}
              {| text_content := EmptyString; text_color := EmptyString |})
    as (bar' & text' & Hrun & _ & _ & _ & _ & _ & _ & Htwo).
  exists bar', text'. split; [exact Hrun|]. apply Htwo. reflexivity.
Defined.

(** ** Start-up *)

Lemma setupRememberMe_world f w :
  exists f', setupRememberMe f w = (Returned f', w).
Proof.
  unfold setupRememberMe, bind, getItem, ret. simpl.
  destruct (remember_checkbox f); [|eauto].
  destruct (strict_eq_text _ "true"); [|eauto]. simpl.
  destruct (username_input f); [|eauto].
  destruct (truthy _); eauto.
Qed.

Lemma existsb_has_class_guest c links :
  existsb (has_class c) (map link_for_guest links) = existsb (has_class c) links.
Proof.
  induction links as [|l rest IH]; simpl; [reflexivity|].
  rewrite IH. f_equal. apply has_class_classes. apply link_projection_cases.
Qed.

(** X26: start-up depends on the session check.  For a guest, [initAuth]
    returns with the guest arrangement applied and a listener registered
    for each element the page has.  When both keys are set and non-empty
    and the stored profile is not JSON, [initAuth] raises the SyntaxError
    of the check and stops there: the world is unchanged and no listener
    is registered, so the forms of the page are left without their
    handlers. *)
Theorem initAuth_depends_on_bootstrap
    (JSON_parse : string -> option jsval) (p : auth_page) (w : world) (text : string) :
  (usable "auth_token" (localStorage w) && usable "user_data" (localStorage w) = false ->
   exists fields,
     initAuth JSON_parse p w =
       (Returned (handlers_for p (auth_links (page w)), fields),
        with_page (with_links (map link_for_guest)) w)) /\
  (usable "auth_token" (localStorage w) = true ->
   localStorage w !! "user_data" = Some text ->
   text <> EmptyString ->
   JSON_parse text = None ->
   initAuth JSON_parse p w = (Thrown SyntaxError, w)).
Proof.
  split.
  - intros Hguest. unfold initAuth, bind.
    rewrite (checkAuthStatus_guest JSON_parse w Hguest).
    destruct (setupRememberMe_world (form_fields p)
                (with_page (with_links (map link_for_guest)) w)) as (fields & ->).
    exists fields. unfold ret, handlers_for. simpl.
    now rewrite existsb_has_class_guest.
  - intros Htoken Htext Hne Hparse.
    assert (Hboth : usable "auth_token" (localStorage w) &&
                    usable "user_data" (localStorage w) = true).
    { rewrite Htoken. unfold usable. rewrite Htext.
      destruct (String.eqb_spec text EmptyString); [contradiction | reflexivity]. }
    destruct (checkAuthStatus_user JSON_parse w Hboth) as (text' & Htext' & Hrun).
    rewrite Htext in Htext'. injection Htext' as <-.
    rewrite Hparse in Hrun. unfold initAuth, bind. now rewrite Hrun.
Qed.

Lemma initAuth_depends_on_bootstrap_witness :
  (exists fields,
     initAuth parse_empty_object guest_page (fresh ∅ login_page) =
       (Returned ({| login_handler := true; register_handler := false;
                     logout_handler := true; toggle_handlers := 1;
                     remember_handler := true |}, fields),
        with_page (with_links (map link_for_guest)) (fresh ∅ login_page))) /\
  initAuth parse_empty_object guest_page
    (fresh (<["auth_token" := "abc"]> (<["user_data" := "{oops"]> ∅)) login_page) =
  (Thrown SyntaxError,
   fresh (<["auth_token" := "abc"]> (<["user_data" := "{oops"]> ∅)) login_page).
Proof.
  split.
  - destruct (initAuth_depends_on_bootstrap parse_empty_object guest_page
                (fresh ∅ login_page) EmptyString) as [Hguest _].
    destruct (Hguest eq_refl) as (fields & Hrun).
    exists fields. exact Hrun.
  - destruct (initAuth_depends_on_bootstrap parse_empty_object guest_page
                (fresh (<["auth_token" := "abc"]> (<["user_data" := "{oops"]> ∅)) login_page)
                "{oops") as [_ Hraise].
    apply Hraise; [reflexivity | reflexivity | discriminate | reflexivity].
Defined.

(** ** Theme and language preferences *)

Ltac run_theme :=
  unfold toggleDarkMode, initializeApp, enableDarkMode, disableDarkMode, bind, getItem,
         setItem, modify, ret, with_theme;
  simpl.

(** What a toggle does, in one equation. *)
Lemma toggleDarkMode_run ui w :
  toggleDarkMode ui w =
    (Returned (with_theme (toggled_theme (data_theme ui)) ui),
     with_storage (fun st => <["theme" := match toggled_theme (data_theme ui) with
                                          | Some _ => "dark"
                                          | None => "light"
                                          end]> st) w).
Proof.
  unfold toggleDarkMode, toggled_theme.
  destruct (data_theme ui) as [t|]; [destruct (String.eqb t "dark")|]; reflexivity.
Qed.

(** X27: the theme toggle keeps the store in step with the page and the
    choice survives a reload.  After a toggle the [data-theme] attribute
    is "dark" exactly when it was not before, the stored [theme] is
    "dark" or "light" accordingly and no other key is written; on the
    next load of a page without the attribute, [initializeApp] restores
    that theme whatever the system preference is. *)
Theorem theme_toggle_persists
    (ui fresh_ui : app_ui) (year : Z) (prefersDark : bool) (w : world) (key : string) :
  let after := (toggleDarkMode ui w).2 in
  let dark := match data_theme ui with
              | Some t => negb (String.eqb t "dark")
              | None => true
              end in
  (toggleDarkMode ui w).1 =
    Returned (with_theme (if dark then Some "dark" else None) ui) /\
  localStorage after !! "theme" = Some (if dark then "dark" else "light") /\
  (key <> "theme" -> localStorage after !! key = localStorage w !! key) /\
  (data_theme fresh_ui = None ->
   exists loaded,
     (initializeApp year prefersDark fresh_ui after).1 = Returned loaded /\
     data_theme loaded = (if dark then Some "dark" else None) /\
     localStorage (initializeApp year prefersDark fresh_ui after).2 !! "theme" =
       Some (if dark then "dark" else "light")).
Proof.
  intros after dark.
  assert (Hdark : toggled_theme (data_theme ui) = if dark then Some "dark" else None).
  { unfold toggled_theme, dark. destruct (data_theme ui) as [t|]; [|reflexivity].
    destruct (String.eqb t "dark"); reflexivity. }
  subst after. rewrite toggleDarkMode_run, Hdark. simpl.
  split; [reflexivity|].
  assert (Htheme : forall st : gmap string string,
             <["theme" := if dark then "dark" else "light"]> st !! "theme" =
               Some (if dark then "dark" else "light")).
  { intros st. destruct dark; apply lookup_insert_eq. }
  split; [destruct dark; apply lookup_insert_eq|].
  split; [intros Hne; destruct dark; now rewrite lookup_insert_ne by congruence|].
  intros Hfresh. run_theme.
  destruct dark; rewrite lookup_insert_eq; simpl.
  - eexists. split; [reflexivity|]. split; [reflexivity|]. apply lookup_insert_eq.
  - eexists. split; [reflexivity|]. simpl.
    split; [destruct (truthy _); exact Hfresh|].
    apply lookup_insert_eq.
Qed.

Lemma theme_toggle_persists_witness :
  exists loaded,
    (initializeApp 2025 true light_ui (toggleDarkMode dark_ui (fresh ∅ login_page)).2).1 =
      Returned loaded /\
    data_theme loaded = None.
Proof.
  destruct (theme_toggle_persists dark_ui light_ui 2025 true (fresh ∅ login_page) "theme")
    as (_ & _ & _ & Hreload).
  destruct (Hreload eq_refl) as (loaded & Hrun & Htheme & _).
  exists loaded. split; [exact Hrun | exact Htheme].
Defined.

(** X28: what [initializeApp] restores.  The year is written when the
    page has the element.  A saved language is put into the selector when
    the selector has an option of that value, and blanks the selection
    when it has none; without a saved language the selection is kept.
    Without a saved theme the system preference decides, and a dark
    preference is written to the store on that first visit. *)
Theorem initializeApp_restores_preferences
    (year : Z) (prefersDark : bool) (ui : app_ui) (w : world) (s : select) (lang : string) :
  localStorage w !! "theme" = None ->
  data_theme ui = None ->
  language_select ui = Some s ->
  exists loaded,
    (initializeApp year prefersDark ui w).1 = Returned loaded /\
    year_span loaded = (match year_span ui with
                        | Some _ => Some (string_of_Z year)
                        | None => None
                        end) /\
    data_theme loaded = (if prefersDark then Some "dark" else None) /\
    localStorage (initializeApp year prefersDark ui w).2 !! "theme" =
      (if prefersDark then Some "dark" else None) /\
    (localStorage w !! "preferredLanguage" = None -> language_select loaded = Some s) /\
    (localStorage w !! "preferredLanguage" = Some lang -> lang <> EmptyString ->
     exists s', language_select loaded = Some s' /\
                select_options s' = select_options s /\
                select_value s' =
                  (if existsb (String.eqb lang) (select_options s) then lang
                   else EmptyString)).
Proof.
  intros Htheme Hattr Hselect. run_theme. rewrite Htheme, Hselect. simpl.
  destruct (localStorage w !! "preferredLanguage") as [saved|]; simpl;
    [destruct (String.eqb_spec saved EmptyString) as [->|Hsaved]; simpl|];
    destruct prefersDark; simpl;
    eexists; (split; [reflexivity|]); simpl;
    (split; [reflexivity|]);
    (split; [reflexivity || exact Hattr|]);
    (split; [apply lookup_insert_eq || exact Htheme|]);
    (split;
     [ intros H; solve [discriminate H | reflexivity]
     | intros H Hne;
       first [ discriminate H
             | injection H as <-;
               first [ contradiction
                     | eexists; split; [reflexivity|]; split; reflexivity ] ] ]).
Qed.

Lemma initializeApp_restores_preferences_witness :
  exists loaded,
    (initializeApp 2025 true light_ui
       (fresh (<["preferredLanguage" := "fr"]> ∅) login_page)).1 = Returned loaded /\
    year_span loaded = Some "2025" /\
    data_theme loaded = Some "dark" /\
    (exists s', language_select loaded = Some s' /\ select_value s' = EmptyString).
Proof.
  destruct (initializeApp_restores_preferences 2025 true light_ui
              (fresh (<["preferredLanguage" := "fr"]> ∅) login_page)
              {| select_options := ["en"; "hi"; "ta"]; select_value := "en" |} "fr")
    as (loaded & Hrun & Hyear & Htheme & _ & _ & Hlang);
    [reflexivity | reflexivity | reflexivity |].
  exists loaded. split; [exact Hrun|]. split; [exact Hyear|]. split; [exact Htheme|].
  destruct (Hlang eq_refl) as (s' & Hs & _ & Hvalue); [discriminate|].
  exists s'. split; [exact Hs | exact Hvalue].
Defined.

(** ** API calls *)

(** X29: what [makeApiCall] sends and what it does with the answer.  The
    call always carries the JSON content type, and an [Authorization]
    header with the stored token exactly when [auth_token] is set and not
    empty; the data is attached, as JSON text, only when it is truthy and
    the method is POST, PUT or PATCH.  A value is returned only for an ok
    response with a JSON body; every other outcome is logged and thrown,
    a response that is not ok as "API call failed: " followed by its
    status.  The store is never written. *)
Theorem api_call_carries_token
    (endpoint method : string) (data : jsval) (net : api_result) (w : world) :
  let sent := (makeApiCall endpoint method data net w).1.1 in
  let answer := (makeApiCall endpoint method data net w).1.2 in
  let w' := (makeApiCall endpoint method data net w).2 in
  sent.1 = endpoint /\
  cfg_method sent.2 = method /\
  cfg_headers sent.2 =
    (("Content-Type", "application/json") ::
     match localStorage w !! "auth_token" with
     | Some token =>
         if String.eqb token EmptyString then []
         else [("Authorization", "Bearer " +:+ token)]
     | None => []
     end) /\
  cfg_body sent.2 =
    (if truthy data && sends_body method
     then Some (text_of (JSON_stringify data)) else None) /\
  localStorage w' = localStorage w /\
  answer = match net with
           | ApiUnreachable => inr (ApiRejected TypeError)
           | ApiResponse false status _ =>
               inr (ApiCallFailed ("API call failed: " +:+ string_of_Z status))
           | ApiResponse true _ None => inr (ApiRejected SyntaxError)
           | ApiResponse true _ (Some v) => inl v
           end /\
  console w' = (console w ++ match answer with
                             | inl _ => []
                             | inr _ => ["API call error:"]
                             end)%list.
Proof.
  unfold makeApiCall, api_request_config, stored, sends_body.
  assert (Hheaders :
            (if truthy match localStorage w !! "auth_token" with
                       | Some s => JStr s
                       | None => JNull
                       end
             then ([("Content-Type", "application/json")] ++
                   [("Authorization",
                     "Bearer " +:+ text_of match localStorage w !! "auth_token" with
                                            | Some s => JStr s
                                            | None => JNull
                                            end)])%list
             else [("Content-Type", "application/json")]) =
            ("Content-Type", "application/json") ::
            match localStorage w !! "auth_token" with
            | Some token =>
                if String.eqb token EmptyString then []
                else [("Authorization", "Bearer " +:+ token)]
            | None => []
            end).
  { destruct (localStorage w !! "auth_token") as [token|]; simpl; [|reflexivity].
    destruct (String.eqb token EmptyString); reflexivity. }
  destruct net as [|[|] status [v|]]; cbn [fst snd cfg_method cfg_headers cfg_body];
    rewrite Hheaders; repeat split; cbn [console with_console];
    rewrite ?app_nil_r; reflexivity.
Qed.

(** X30: API calls follow the session.  After a login accepted with a
    truthy token that converts to a non-empty string, a call carries that
    string as bearer token; after a confirmed logout whose request
    completed, a call carries no [Authorization] header. *)
Theorem api_call_follows_session (resolves : string -> bool)
    (entries : list (string * string)) (remember : option bool)
    (fields : list (string * jsval)) (ok : bool) (body : option jsval)
    (endpoint method : string) (data : jsval) (net : api_result) (w : world) :
  (truthy (assoc "token" fields) = true ->
   convertible (assoc "token" fields) = true ->
   text_of (assoc "token" fields) <> EmptyString ->
   let w1 := exec (login_submit resolves entries remember (Response true (Some (JObj fields)))) w in
   cfg_headers (makeApiCall endpoint method data net w1).1.1.2 =
     [("Content-Type", "application/json");
      ("Authorization", "Bearer " +:+ text_of (assoc "token" fields))]) /\
  (let w2 := exec (logout_click true (Response ok body)) w in
   cfg_headers (makeApiCall endpoint method data net w2).1.1.2 =
     [("Content-Type", "application/json")]).
Proof.
  split.
  - intros Htoken Hconv Htext w1.
    assert (Hstored : localStorage w1 !! "auth_token" =
                      Some (text_of (assoc "token" fields))).
    { subst w1. rewrite login_store. unfold token_storable. rewrite Hconv, orb_true_r.
      destruct (login_writes_lookup remember fields w "auth_token")
        as (_ & _ & _ & Htok & _).
      exact (Htok Htoken). }
    clearbody w1.
    unfold makeApiCall, api_request_config, stored.
    destruct net as [|[|] status [v|]]; cbn [fst snd cfg_headers];
      rewrite Hstored; simpl;
      destruct (String.eqb_spec (text_of (assoc "token" fields)) EmptyString);
      solve [contradiction | reflexivity].
  - intros w2.
    assert (Hgone : localStorage w2 !! "auth_token" = None).
    { subst w2. rewrite logout_store.
      rewrite lookup_delete_ne by discriminate.
      rewrite lookup_delete_ne by discriminate.
      apply lookup_delete_eq. }
    clearbody w2.
    unfold makeApiCall, api_request_config, stored.
    destruct net as [|[|] status [v|]]; cbn [fst snd cfg_headers];
      rewrite Hgone; reflexivity.
Qed.

Lemma api_call_follows_session_witness :
  cfg_headers (makeApiCall "/api/chat" "POST" (JObj [("q", JStr "hi")]) ApiUnreachable
                 (exec (login_submit path_only credentials None (accepted (JStr "abc") alice))
                       (fresh ∅ login_page))).1.1.2 =
    [("Content-Type", "application/json"); ("Authorization", "Bearer abc")].
Proof.
  destruct (api_call_follows_session path_only credentials None
              [("token", JStr "abc"); ("user", alice)] true None
              "/api/chat" "POST" (JObj [("q", JStr "hi")]) ApiUnreachable
              (fresh ∅ login_page)) as [Hlogin _].
  apply Hlogin; [reflexivity | reflexivity | discriminate].
Defined.
